(** * Challenge-response authentication over a TCP socket

    A shallow embedding of [server2.cpp] and [client2.cpp]: the HMAC
    challenge-response server ("Verifier") and client ("Prover").

    The programs talk to three things that are not part of the
    repository: the POSIX socket layer ([read], [send], [close], ...),
    OpenSSL's [RAND_bytes] and OpenSSL's [HMAC].  They are modelled by a
    [World]: a record holding what the kernel and libcrypto will answer,
    together with the trace of the calls the program has made so far.
    Every C++ function becomes a computation in the monad [M], which
    threads the world and propagates C++ exceptions. *)

From Stdlib Require Import ZArith List String Bool Lia.
From Stdlib.Strings Require Import Byte.
Import ListNotations.
Local Open Scope Z_scope.

(** ** Data *)

(** [std::string] used as a counted buffer of raw bytes. *)
Definition std_string : Type := list byte.

(** A C++ string literal. *)
Definition lit (s : string) : std_string := list_byte_of_string s.

(** [operator==] on [std::string]. *)
Fixpoint string_eqb (a b : std_string) : bool :=
  match a, b with
  | [], [] => true
  | x :: a', y :: b' => Byte.eqb x y && string_eqb a' b'
  | _, _ => false
  end.

(** [static_cast<int>] of a [size_t]: reduction into the 32-bit signed range. *)
Definition to_int (n : Z) : Z := (n + 2 ^ 31) mod 2 ^ 32 - 2 ^ 31.

(** [s.length()] as a [size_t]. *)
Definition size (s : std_string) : Z := Z.of_nat (List.length s).

(** A zero-initialised [char buffer[n]{}]. *)
Definition zeroed (n : nat) : list byte := repeat x00 n.

(** [std::string(buffer, n)]: the first [n] bytes of an array. *)
Definition string_of_buffer (buffer : list byte) (n : nat) : std_string :=
  firstn n buffer.

(** Storing [bs] at the start of an array, the rest of the array unchanged. *)
Definition fill (buffer bs : list byte) : list byte :=
  bs ++ skipn (List.length bs) buffer.

(** ** The world outside the program *)

(** What the socket holds for the next [read]: a segment of bytes that has
    arrived, the end of the stream (peer closed), or a failure. *)
Inductive delivery : Type :=
| Data (bs : std_string)
| Eof
| Err.

(** The calls the program makes, in the order it makes them. *)
Inductive event : Type :=
| EvRead (fd : Z) (bytes_read : Z)
| EvSend (fd : Z) (msg : std_string)
| EvClose (fd : Z)
| EvRand (num : Z)
| EvStdout (s : std_string)
| EvStderr (s : std_string).

Record World : Type := mkWorld {
  (** socket layer *)
  inbound     : list delivery;  (* what successive reads of the connection find *)
  sys_socket  : Z;              (* result of socket() *)
  sys_bind    : Z;              (* result of bind() *)
  sys_listen  : Z;              (* result of listen() *)
  sys_accept  : Z;              (* result of accept() *)
  sys_connect : Z;              (* result of connect() *)
  sys_pton    : Z;              (* result of inet_pton() *)
  (** libcrypto *)
  rand_status : Z;              (* result of RAND_bytes: 1, 0 or -1 *)
  entropy     : nat -> byte;    (* the output stream of the secure generator *)
  drawn       : nat;            (* how much of [entropy] has been handed out *)
  HMAC_sha1   : std_string -> Z -> std_string -> Z -> option (nat -> byte);
                                (* HMAC(EVP_sha1(), key, key_len, d, n, NULL, NULL):
                                   NULL, or the bytes found at the returned pointer *)
  (** history *)
  trace       : list event
}.

Definition log (e : event) (w : World) : World :=
  mkWorld (inbound w) (sys_socket w) (sys_bind w) (sys_listen w) (sys_accept w)
          (sys_connect w) (sys_pton w)
          (rand_status w) (entropy w) (drawn w) (HMAC_sha1 w) (trace w ++ [e]).

Definition set_inbound (ds : list delivery) (w : World) : World :=
  mkWorld ds (sys_socket w) (sys_bind w) (sys_listen w) (sys_accept w)
          (sys_connect w) (sys_pton w)
          (rand_status w) (entropy w) (drawn w) (HMAC_sha1 w) (trace w).

Definition set_drawn (n : nat) (w : World) : World :=
  mkWorld (inbound w) (sys_socket w) (sys_bind w) (sys_listen w) (sys_accept w)
          (sys_connect w) (sys_pton w)
          (rand_status w) (entropy w) n (HMAC_sha1 w) (trace w).

(** ** The monad of C++ computations *)

Inductive outcome (A : Type) : Type :=
| Ok (a : A)                (* normal return *)
| Throw (what : string)     (* a std::runtime_error is in flight *)
| Undefined (why : string). (* the abstract machine left defined behaviour *)
Arguments Ok {A} a.
Arguments Throw {A} what.
Arguments Undefined {A} why.

Definition M (A : Type) : Type := World -> outcome A * World.

Definition ret {A} (a : A) : M A := fun w => (Ok a, w).

Definition throw {A} (what : string) : M A := fun w => (Throw what, w).

Definition undefined {A} (why : string) : M A := fun w => (Undefined why, w).

Definition bind {A B} (c : M A) (k : A -> M B) : M B :=
  fun w =>
    match c w with
    | (Ok a, w') => k a w'
    | (Throw e, w') => (Throw e, w')
    | (Undefined u, w') => (Undefined u, w')
    end.

(** [try { c } catch (const std::exception &e) { h e }]. *)
Definition try_catch {A} (c : M A) (h : string -> M A) : M A :=
  fun w =>
    match c w with
    | (Throw e, w') => h e w'
    | r => r
    end.

Definition emit (e : event) : M unit := fun w => (Ok tt, log e w).

Definition ask {A} (f : World -> A) : M A := fun w => (Ok (f w), w).

Declare Scope cpp_scope.
Delimit Scope cpp_scope with cpp.
Notation "x <- c ;; k" := (bind c (fun x => k))
  (at level 61, c at next level, right associativity) : cpp_scope.
Notation "c ;;; k" := (bind c (fun _ => k))
  (at level 61, right associativity) : cpp_scope.
Local Open Scope cpp_scope.

(** ** System and library calls *)

(** [read(fd, buffer, count)]: at most [count] bytes of the segment at the
    head of the connection are stored into [buffer]; what does not fit
    stays in the socket.  Returns the byte count and the new buffer. *)
Definition sys_read (fd : Z) (buffer : list byte) (count : nat)
  : M (Z * list byte) :=
  fun w =>
    match inbound w with
    | [] => (Ok (0, buffer), log (EvRead fd 0) w)
    | Eof :: rest => (Ok (0, buffer), log (EvRead fd 0) (set_inbound rest w))
    | Err :: rest => (Ok (-1, buffer), log (EvRead fd (-1)) (set_inbound rest w))
    | Data bs :: rest =>
        let got := firstn count bs in
        let left := skipn count bs in
        let n := Z.of_nat (List.length got) in
        (Ok (n, fill buffer got),
         log (EvRead fd n)
             (set_inbound (match left with [] => rest | _ => Data left :: rest end) w))
    end.

(** [send(fd, msg, len, 0)]: the call is recorded; the programs discard
    its result, so what follows does not depend on it.  On a connection
    that has been reset the call does not come back at all: with flags 0
    it raises SIGPIPE, which ends the process.  That is the kernel's side
    of the call and is accounted for by [observed_from] and [killed_from]
    below, which cut a run at such a call. *)
Definition sys_send (fd : Z) (msg : std_string) : M unit := emit (EvSend fd msg).

Definition sys_close (fd : Z) : M unit := emit (EvClose fd).

Definition cout (s : std_string) : M unit := emit (EvStdout s).

Definition cerr (s : std_string) : M unit := emit (EvStderr s).

(** [RAND_bytes(buffer, num)] on an array of [List.length buffer] bytes.
    On success (status 1) the next [num] bytes of the generator (none for
    a [num] that is not positive) are stored at the start of the array;
    storing past its end is undefined.  With any other status the array is
    left as it was. *)
Definition RAND_bytes (buffer : list byte) (num : Z) : M (Z * list byte) :=
  emit (EvRand num) ;;;
  status <- ask rand_status ;;
  if status =? 1 then
    if num >? Z.of_nat (List.length buffer)
    then undefined "RAND_bytes writes past the end of buffer"
    else
      pos <- ask drawn ;;
      src <- ask entropy ;;
      (fun w => (Ok (status, fill buffer (map src (seq pos (Z.to_nat num)))),
                 set_drawn (pos + Z.to_nat num) w))
  else ret (status, buffer).

(** [HMAC(EVP_sha1(), key, key_len, d, n, nullptr, nullptr)]. *)
Definition HMAC (key : std_string) (key_len : Z) (d : std_string) (n : Z)
  : M (option (nat -> byte)) :=
  f <- ask HMAC_sha1 ;; ret (f key key_len d n).

(** [std::string(buffer, n)] for a caller-supplied count: reading past the
    end of the array is undefined. *)
Definition string_from (buffer : list byte) (n : Z) : M std_string :=
  if n >? Z.of_nat (List.length buffer)
  then undefined "std::string reads past the end of buffer"
  else ret (string_of_buffer buffer (Z.to_nat n)).

(** [std::string(p, n)] for a pointer into memory owned by OpenSSL. *)
Definition string_at (p : nat -> byte) (n : nat) : std_string :=
  map p (seq 0 n).

Definition endl : std_string := [x0a].

(** ** server2.cpp *)

Module Server2.

Definition PORT : Z := 12345.

Definition SHARED_SECRET : std_string := lit "pass123".

(** [generate_challenge(size_t length = 16)] *)
Definition generate_challenge (length : Z) : M std_string :=
  let buffer := zeroed 64 in
  r <- RAND_bytes buffer (to_int length) ;;
  let '(status, buffer) := r in
  if status =? 0
  then throw "Failed to generate random challenge"
  else string_from buffer length.

Definition default_length : Z := 16.

(** [compute_hmac(data, key)] *)
Definition compute_hmac (data key : std_string) : M std_string :=
  let len := 20%nat in
  raw_result <- HMAC key (to_int (size key)) data (size data) ;;
  match raw_result with
  | None => throw "HMAC computation failed"
  | Some p => ret (string_at p len)
  end.

(** [create_server_socket()] *)
Definition create_server_socket : M Z :=
  sockfd <- ask sys_socket ;;
  if sockfd <? 0 then throw "Socket creation failed"
  else
    b <- ask sys_bind ;;
    if b <? 0 then throw "Bind failed"
    else
      l <- ask sys_listen ;;
      if l <? 0 then throw "Listen failed"
      else ret sockfd.

(** [read_message(sock)] *)
Definition read_message (sock : Z) : M std_string :=
  let buffer := zeroed 1024 in
  r <- sys_read sock buffer 1024 ;;
  let '(bytes_read, buffer) := r in
  if bytes_read >? 0
  then ret (string_of_buffer buffer (Z.to_nat bytes_read))
  else ret [].

(** [send_message(sock, msg)] *)
Definition send_message (sock : Z) (msg : std_string) : M unit :=
  sys_send sock msg.

Definition success : std_string := lit "Authentication successful. Welcome!".
Definition failure : std_string := lit "Authentication failed.".

(** [handle_client(client_sock)] *)
Definition handle_client (client_sock : Z) : M unit :=
  hello <- read_message client_sock ;;
  cout (lit "Client: " ++ hello ++ endl) ;;;
  challenge <- generate_challenge default_length ;;
  send_message client_sock challenge ;;;
  client_digest <- read_message client_sock ;;
  expected_digest <- compute_hmac challenge SHARED_SECRET ;;
  let response :=
    if string_eqb client_digest expected_digest then success else failure in
  send_message client_sock response ;;;
  sys_close client_sock.

(** [main()] *)
Definition main : M Z :=
  try_catch
    (server_sock <- create_server_socket ;;
     cout (lit "Server listening on port 12345..." ++ endl) ;;;
     client_sock <- ask sys_accept ;;
     (if client_sock <? 0 then throw "Accept failed" else ret tt) ;;;
     handle_client client_sock ;;;
     sys_close server_sock)
    (fun what => cerr (lit "Server error: " ++ lit what ++ endl)) ;;;
  ret 0.

End Server2.

(** ** client2.cpp *)

Module Client2.

Definition PORT : Z := 12345.

Definition SHARED_SECRET : std_string := lit "pass123".

(** [compute_hmac(data, key)] *)
Definition compute_hmac (data key : std_string) : M std_string :=
  let len := 20%nat in
  raw_result <- HMAC key (to_int (size key)) data (size data) ;;
  match raw_result with
  | None => throw "HMAC computation failed"
  | Some p => ret (string_at p len)
  end.

(** [create_client_socket()] *)
Definition create_client_socket : M Z :=
  sock <- ask sys_socket ;;
  if sock <? 0 then throw "Socket creation failed"
  else
    result <- ask sys_pton ;;
    if result <=? 0 then throw "Invalid or unsupported IP address"
    else
      c <- ask sys_connect ;;
      if c <? 0 then throw "Connection failed"
      else ret sock.

(** [read_message(sock)] *)
Definition read_message (sock : Z) : M std_string :=
  let buffer := zeroed 1024 in
  r <- sys_read sock buffer 1024 ;;
  let '(bytes_read, buffer) := r in
  if bytes_read >? 0
  then ret (string_of_buffer buffer (Z.to_nat bytes_read))
  else ret [].

(** [send_message(sock, msg)] *)
Definition send_message (sock : Z) (msg : std_string) : M unit :=
  sys_send sock msg.

(** [client_interaction(sock)] *)
Definition client_interaction (sock : Z) : M unit :=
  send_message sock (lit "hello") ;;;
  challenge <- read_message sock ;;
  cout (lit "Received challenge: " ++ challenge ++ endl) ;;;
  digest <- compute_hmac challenge SHARED_SECRET ;;
  send_message sock digest ;;;
  response <- read_message sock ;;
  cout (lit "Server: " ++ response ++ endl).

(** [main()] *)
Definition main : M Z :=
  try_catch
    (sock <- create_client_socket ;;
     client_interaction sock ;;;
     sys_close sock)
    (fun what => cerr (lit "Client error: " ++ lit what ++ endl)) ;;;
  ret 0.

End Client2.

(** ** A reference HMAC-SHA1

    OpenSSL is not part of the repository; the programs only see it
    through [HMAC_sha1] in the world.  To run the model on concrete
    sessions that field is filled with the function below, HMAC (RFC 2104)
    over SHA-1 (FIPS 180-4) on 32-bit words held in [Z]. *)

Module Libcrypto.

Definition w32 (x : Z) : Z := x mod 2 ^ 32.

Definition rotl (n x : Z) : Z :=
  w32 (Z.lor (Z.shiftl x n) (Z.shiftr x (32 - n))).

Definition lnot32 (x : Z) : Z := Z.lxor x 0xFFFFFFFF.

Definition byte_to_Z (b : byte) : Z := Z.of_N (Byte.to_N b).

Definition byte_of_Z (z : Z) : byte :=
  match Byte.of_N (Z.to_N (z mod 256)) with
  | Some b => b
  | None => x00
  end.

(** big-endian bytes of a word, most significant first *)
Fixpoint be_bytes (n : nat) (x : Z) : list Z :=
  match n with
  | O => []
  | S n' => Z.shiftr x (8 * Z.of_nat n') mod 256 :: be_bytes n' x
  end.

Fixpoint be_words (bs : list Z) (fuel : nat) : list Z :=
  match fuel, bs with
  | S f, b0 :: b1 :: b2 :: b3 :: rest =>
      (b0 * 2 ^ 24 + b1 * 2 ^ 16 + b2 * 2 ^ 8 + b3) :: be_words rest f
  | _, _ => []
  end.

Definition pad (msg : list Z) : list Z :=
  let l := Z.of_nat (List.length msg) in
  let k := (55 - l) mod 64 in
  msg ++ [0x80] ++ repeat 0 (Z.to_nat k) ++ be_bytes 8 (8 * l).

Fixpoint schedule (n : nat) (w : list Z) : list Z :=
  match n with
  | O => w
  | S n' =>
      let t := List.length w in
      let x := Z.lxor (Z.lxor (nth (t - 3) w 0) (nth (t - 8) w 0))
                      (Z.lxor (nth (t - 14) w 0) (nth (t - 16) w 0)) in
      schedule n' (w ++ [rotl 1 x])
  end.

Definition f (t b c d : Z) : Z :=
  if t <? 20 then Z.lor (Z.land b c) (Z.land (lnot32 b) d)
  else if t <? 40 then Z.lxor b (Z.lxor c d)
  else if t <? 60 then Z.lor (Z.lor (Z.land b c) (Z.land b d)) (Z.land c d)
  else Z.lxor b (Z.lxor c d).

Definition K (t : Z) : Z :=
  if t <? 20 then 0x5A827999
  else if t <? 40 then 0x6ED9EBA1
  else if t <? 60 then 0x8F1BBCDC
  else 0xCA62C1D6.

Definition state : Type := (Z * Z * Z * Z * Z)%type.

Definition round (w : list Z) (s : state) (t : nat) : state :=
  let '(a, b, c, d, e) := s in
  let tz := Z.of_nat t in
  let temp := w32 (rotl 5 a + f tz b c d + e + K tz + nth t w 0) in
  (temp, a, rotl 30 b, c, d).

Definition compress (h : state) (block : list Z) : state :=
  let w := schedule 64 (be_words block 16) in
  let '(a, b, c, d, e) := fold_left (round w) (seq 0 80) h in
  let '(h0, h1, h2, h3, h4) := h in
  (w32 (h0 + a), w32 (h1 + b), w32 (h2 + c), w32 (h3 + d), w32 (h4 + e)).

Fixpoint blocks (fuel : nat) (bs : list Z) (h : state) : state :=
  match fuel, bs with
  | S fl, _ :: _ => blocks fl (skipn 64 bs) (compress h (firstn 64 bs))
  | _, _ => h
  end.

Definition H0 : state :=
  (0x67452301, 0xEFCDAB89, 0x98BADCFE, 0x10325476, 0xC3D2E1F0).

Definition sha1 (msg : list Z) : list Z :=
  let p := pad msg in
  let '(h0, h1, h2, h3, h4) := blocks (List.length p) p H0 in
  be_bytes 4 h0 ++ be_bytes 4 h1 ++ be_bytes 4 h2 ++ be_bytes 4 h3 ++ be_bytes 4 h4.

Definition hmac (key msg : list Z) : list Z :=
  let k0 := if (64 <? Z.of_nat (List.length key)) then sha1 key else key in
  let k := k0 ++ repeat 0 (64 - List.length k0) in
  let ipad := map (Z.lxor 0x36) k in
  let opad := map (Z.lxor 0x5c) k in
  sha1 (opad ++ sha1 (ipad ++ msg)).

(** The function a working libcrypto provides: never NULL for a
    non-negative key length, and the digest at the returned address. *)
Definition HMAC_sha1 (key : std_string) (key_len : Z) (d : std_string) (n : Z)
  : option (nat -> byte) :=
  if key_len <? 0 then None
  else
    let k := map byte_to_Z (firstn (Z.to_nat key_len) key) in
    let m := map byte_to_Z (firstn (Z.to_nat n) d) in
    let md := map byte_of_Z (hmac k m) in
    Some (fun i => nth i md x00).

End Libcrypto.

(** ** Observations on a run *)

(** How often [close(fd)] has been called. *)
Fixpoint closes (fd : Z) (tr : list event) : nat :=
  match tr with
  | [] => 0
  | EvClose fd' :: tr' => (if fd' =? fd then 1 else 0) + closes fd tr'
  | _ :: tr' => closes fd tr'
  end.

(** The byte stream the program has put on the connection [fd]: the
    arguments of its [send] calls, one after the other. *)
Fixpoint wire (fd : Z) (tr : list event) : std_string :=
  match tr with
  | [] => []
  | EvSend fd' msg :: tr' => if fd' =? fd then msg ++ wire fd tr' else wire fd tr'
  | _ :: tr' => wire fd tr'
  end.

(** A byte-stream transport hands a stream over in segments of its own
    choosing: [cuts] are the sizes of the leading segments, what is left
    after the last cut arrives as one segment. *)
Fixpoint segments (cuts : list nat) (bs : std_string) : list delivery :=
  match bs with
  | [] => []
  | _ :: _ =>
      match cuts with
      | [] => [Data bs]
      | n :: cuts' => Data (firstn n bs) :: segments cuts' (skipn n bs)
      end
  end.

(** The wire format of the specification (section 6), for comparison with
    what the programs put on the wire: a 4-byte big-endian length, then
    the payload. *)
Definition be32 (n : Z) : std_string :=
  map Libcrypto.byte_of_Z (Libcrypto.be_bytes 4 n).

Definition frame (B : std_string) : std_string := be32 (size B) ++ B.

(** ** Concrete worlds *)

Definition sample_entropy (i : nat) : byte :=
  Libcrypto.byte_of_Z (Z.of_nat i * 37 + 11).

(** A machine on which every socket call succeeds (listening socket 3,
    connection 4) and libcrypto works; [status] is what [RAND_bytes]
    answers and [ds] what the peer delivers. *)
Definition machine (ds : list delivery) (status : Z) : World :=
  mkWorld ds 3 0 0 4 0 1 status sample_entropy 0 Libcrypto.HMAC_sha1 [].

(** The same machine with an [HMAC] that returns NULL. *)
Definition machine_no_hmac (ds : list delivery) : World :=
  mkWorld ds 3 0 0 4 0 1 1 sample_entropy 0 (fun _ _ _ _ => None) [].

(** The challenge [machine] issues first. *)
Definition sample_challenge : std_string := map sample_entropy (seq 0 16).

(** The tag a Prover computes over [challenge] with the key [secret]. *)
Definition tag_of (secret challenge : std_string) : std_string :=
  match Libcrypto.HMAC_sha1 secret (size secret) challenge (size challenge) with
  | Some p => string_at p 20
  | None => []
  end.

(** A session with a Prover that holds the server's secret, and one with a
    Prover that holds the key "wrong": a greeting, then the tag. *)
Definition honest_session : World :=
  machine [Data (lit "hello"); Data (tag_of Server2.SHARED_SECRET sample_challenge)] 1.

Definition wrong_session : World :=
  machine [Data (lit "hello"); Data (tag_of (lit "wrong") sample_challenge)] 1.

(** A frame whose declared length is 4096, followed by its payload. *)
Definition oversized : std_string := frame (repeat x41 4096).

(** ** server.cpp and client.cpp: the plaintext variant *)

Module Server1.

Definition PORT : Z := 12345.

(** [create_server_socket()] *)
Definition create_server_socket : M Z :=
  sockfd <- ask sys_socket ;;
  if sockfd <? 0 then throw "Socket creation failed"
  else
    b <- ask sys_bind ;;
    if b <? 0 then throw "Bind failed"
    else
      l <- ask sys_listen ;;
      if l <? 0 then throw "Listen failed"
      else ret sockfd.

(** [read_message(sock)] *)
Definition read_message (sock : Z) : M std_string :=
  let buffer := zeroed 1024 in
  r <- sys_read sock buffer 1024 ;;
  let '(bytes_read, buffer) := r in
  if bytes_read >? 0
  then ret (string_of_buffer buffer (Z.to_nat bytes_read))
  else ret [].

(** [send_message(sock, msg)] *)
Definition send_message (sock : Z) (msg : std_string) : M unit :=
  sys_send sock msg.

Definition greeting : std_string := lit "Hello. Send your greeting.".
Definition ask_username : std_string := lit "Enter username:".
Definition ask_password : std_string := lit "Enter password:".
Definition success : std_string :=
  lit "Authentication successful." ++ endl ++ lit " secret_data_from_server...".
Definition failure : std_string := lit "Authentication failed.".

(** [handle_client(client_sock)] *)
Definition handle_client (client_sock : Z) : M unit :=
  send_message client_sock greeting ;;;
  hello <- read_message client_sock ;;
  cout (lit "Client says: " ++ hello ++ endl) ;;;
  send_message client_sock ask_username ;;;
  username <- read_message client_sock ;;
  send_message client_sock ask_password ;;;
  password <- read_message client_sock ;;
  (if string_eqb username (lit "admin") && string_eqb password (lit "pass123")
   then send_message client_sock success
   else send_message client_sock failure) ;;;
  sys_close client_sock.

(** [main()] *)
Definition main : M Z :=
  try_catch
    (server_sock <- create_server_socket ;;
     cout (lit "Server listening on port 12345..." ++ endl) ;;;
     client_sock <- ask sys_accept ;;
     (if client_sock <? 0 then throw "Accept failed" else ret tt) ;;;
     handle_client client_sock ;;;
     sys_close server_sock)
    (fun what => cerr (lit "Server error: " ++ lit what ++ endl)) ;;;
  ret 0.

End Server1.

Module Client1.

Definition PORT : Z := 12345.

(** [set_ip_address(addr, ip_str)] *)
Definition set_ip_address (ip_str : string) : M unit :=
  result <- ask sys_pton ;;
  if result <=? 0 then
    if result =? 0
    then throw ("Invalid IP address format: " ++ ip_str)
    else throw "Failed to convert IP address"
  else ret tt.

(** [create_client_socket()] *)
Definition create_client_socket : M Z :=
  sock <- ask sys_socket ;;
  if sock <? 0 then throw "Socket creation failed"
  else
    set_ip_address "127.0.0.1" ;;;
    c <- ask sys_connect ;;
    if c <? 0 then throw "Connection failed"
    else ret sock.

(** [read_message(sock)] *)
Definition read_message (sock : Z) : M std_string :=
  let buffer := zeroed 1024 in
  r <- sys_read sock buffer 1024 ;;
  let '(bytes_read, buffer) := r in
  if bytes_read >? 0
  then ret (string_of_buffer buffer (Z.to_nat bytes_read))
  else ret [].

(** [send_message(sock, msg)] *)
Definition send_message (sock : Z) (msg : std_string) : M unit :=
  sys_send sock msg.

(** [std::getline(std::cin, s)] on the lines still waiting on standard
    input: the next line without its newline, or the empty string at the
    end of the input. *)
Definition getline (input : list std_string) : std_string * list std_string :=
  match input with
  | [] => ([], [])
  | line :: rest => (line, rest)
  end.

(** [client_interaction(sock)]; standard input is passed in and what is
    left of it is returned. *)
Definition client_interaction (sock : Z) (input : list std_string)
  : M (list std_string) :=
  msg <- read_message sock ;;
  cout (msg ++ endl) ;;;
  send_message sock (lit "hello") ;;;
  msg <- read_message sock ;;
  cout (msg ++ endl) ;;;
  let '(username, input) := getline input in
  send_message sock username ;;;
  msg <- read_message sock ;;
  cout (msg ++ endl) ;;;
  let '(password, input) := getline input in
  send_message sock password ;;;
  msg <- read_message sock ;;
  cout (msg ++ endl) ;;;
  ret input.

(** [main()] *)
Definition main (input : list std_string) : M Z :=
  try_catch
    (sock <- create_client_socket ;;
     client_interaction sock input ;;;
     sys_close sock)
    (fun what => cerr (lit "Client error: " ++ lit what ++ endl)) ;;;
  ret 0.

End Client1.

(** ** Further observations on a run *)

(** The messages handed to [send] on [fd], one by one. *)
Fixpoint sends (fd : Z) (tr : list event) : list std_string :=
  match tr with
  | [] => []
  | EvSend fd' msg :: tr' => if fd' =? fd then msg :: sends fd tr' else sends fd tr'
  | _ :: tr' => sends fd tr'
  end.

(** What has been written to standard error, and to standard output. *)
Fixpoint stderr_lines (tr : list event) : list std_string :=
  match tr with
  | [] => []
  | EvStderr s :: tr' => s :: stderr_lines tr'
  | _ :: tr' => stderr_lines tr'
  end.

Fixpoint stdout_lines (tr : list event) : list std_string :=
  match tr with
  | [] => []
  | EvStdout s :: tr' => s :: stdout_lines tr'
  | _ :: tr' => stdout_lines tr'
  end.

(** A transport that keeps message boundaries: every message sent
    arrives as one segment. *)
Definition whole (msgs : list std_string) : list delivery := map Data msgs.

(** ** SIGPIPE

    [send] with flags 0 on a stream socket that is no longer connected
    raises SIGPIPE.  None of the four programs handles or ignores the
    signal or passes MSG_NOSIGNAL, so its default action ends the process
    inside that [send]: the message is not sent and nothing after the call
    is executed.  Whether the connection has been reset by the time of a
    [send] is decided by the peer and the kernel: [reset k] says so for the
    [k]-th [send] of the process, counting from 0.  Up to such a call the
    process has done exactly what the run in [M] records, so what really
    happens is the trace of the run cut before the first [send] on a reset
    connection. *)

(** The events that really take place. *)
Fixpoint observed_from (reset : nat -> bool) (k : nat) (tr : list event)
  : list event :=
  match tr with
  | [] => []
  | EvSend fd msg :: tr' =>
      if reset k then [] else EvSend fd msg :: observed_from reset (S k) tr'
  | e :: tr' => e :: observed_from reset k tr'
  end.

(** Whether the process was ended by SIGPIPE. *)
Fixpoint killed_from (reset : nat -> bool) (k : nat) (tr : list event) : bool :=
  match tr with
  | [] => false
  | EvSend _ _ :: tr' => if reset k then true else killed_from reset (S k) tr'
  | _ :: tr' => killed_from reset k tr'
  end.

Definition observed (reset : nat -> bool) (tr : list event) : list event :=
  observed_from reset 0 tr.

Definition killed (reset : nat -> bool) (tr : list event) : bool :=
  killed_from reset 0 tr.

(** A connection that is never reset, and one that has been reset by the
    time of the second [send]. *)
Definition never_reset : nat -> bool := fun _ => false.

Definition reset_after_first_send : nat -> bool := fun k => (1 <=? k)%nat.

(** Closing a goal [c w = (Ok v, snd (c w))] on a concrete world by running [c]. *)
Ltac by_running :=
  apply injective_projections; [vm_compute; reflexivity | reflexivity].

(** * Properties *)

(** ** The reference HMAC-SHA1 against published test vectors *)

Example sha1_abc :
  Libcrypto.sha1 (map Libcrypto.byte_to_Z (lit "abc")) =
  [0xa9; 0x99; 0x3e; 0x36; 0x47; 0x06; 0x81; 0x6a; 0xba; 0x3e;
   0x25; 0x71; 0x78; 0x50; 0xc2; 0x6c; 0x9c; 0xd0; 0xd8; 0x9d].
Proof. vm_compute. reflexivity. Qed.

Example sha1_two_blocks :
  Libcrypto.sha1
    (map Libcrypto.byte_to_Z
         (lit "abcdbcdecdefdefgefghfghighijhijkijkljklmklmnlmnomnopnopq")) =
  [0x84; 0x98; 0x3e; 0x44; 0x1c; 0x3b; 0xd2; 0x6e; 0xba; 0xae;
   0x4a; 0xa1; 0xf9; 0x51; 0x29; 0xe5; 0xe5; 0x46; 0x70; 0xf1].
Proof. vm_compute. reflexivity. Qed.

Example hmac_rfc2202_case2 :
  Libcrypto.hmac (map Libcrypto.byte_to_Z (lit "Jefe"))
                 (map Libcrypto.byte_to_Z (lit "what do ya want for nothing?")) =
  [0xef; 0xfc; 0xdf; 0x6a; 0xe5; 0xeb; 0x2f; 0xa2; 0xd2; 0x74;
   0x16; 0xd5; 0xf1; 0x84; 0xdf; 0x9c; 0x25; 0x9a; 0x7c; 0x79].
Proof. vm_compute. reflexivity. Qed.

Example hmac_rfc2202_case6 :
  Libcrypto.hmac (repeat 0xaa 80)
                 (map Libcrypto.byte_to_Z
                      (lit "Test Using Larger Than Block-Size Key - Hash Key First")) =
  [0xaa; 0x4a; 0xe5; 0xe1; 0x52; 0x72; 0xd0; 0x0e; 0x95; 0x70;
   0x56; 0x37; 0xce; 0x8a; 0x3b; 0x55; 0xed; 0x40; 0x21; 0x12].
Proof. vm_compute. reflexivity. Qed.

(** ** Strings and buffers *)

Lemma string_eqb_refl (a : std_string) : string_eqb a a = true.
Proof.
  induction a as [|x a IH]; simpl; [reflexivity|].
  rewrite IH, (Byte.byte_dec_lb eq_refl). reflexivity.
Qed.

Lemma string_eqb_true (a b : std_string) : string_eqb a b = true -> a = b.
Proof.
  revert b; induction a as [|x a IH]; intros [|y b]; simpl; try discriminate.
  - reflexivity.
  - intros [Hxy Hab]%andb_true_iff.
    apply Byte.byte_dec_bl in Hxy. apply IH in Hab. congruence.
Qed.

Lemma string_eqb_false (a b : std_string) : a <> b -> string_eqb a b = false.
Proof.
  intros Hne. destruct (string_eqb a b) eqn:E; [|reflexivity].
  apply string_eqb_true in E. contradiction.
Qed.

Lemma string_eqb_neq (a b : std_string) : string_eqb a b = false -> a <> b.
Proof.
  intros H E. rewrite E, string_eqb_refl in H. discriminate.
Qed.

Lemma string_at_length (p : nat -> byte) (n : nat) :
  List.length (string_at p n) = n.
Proof. unfold string_at. rewrite length_map, length_seq. reflexivity. Qed.

Lemma fill_prefix (buffer bs : list byte) :
  string_of_buffer (fill buffer bs) (List.length bs) = bs.
Proof.
  unfold string_of_buffer, fill.
  rewrite firstn_app, firstn_all, Nat.sub_diag. simpl. apply app_nil_r.
Qed.

Lemma fill_length (buffer bs : list byte) :
  (List.length bs <= List.length buffer)%nat ->
  List.length (fill buffer bs) = List.length buffer.
Proof.
  intros H. unfold fill. rewrite length_app, length_skipn. lia.
Qed.

Lemma closes_app (fd : Z) (tr1 tr2 : list event) :
  closes fd (tr1 ++ tr2) = (closes fd tr1 + closes fd tr2)%nat.
Proof.
  induction tr1 as [|e tr1 IH]; simpl; [reflexivity|].
  destruct e; rewrite IH; lia.
Qed.

Lemma wire_app (fd : Z) (tr1 tr2 : list event) :
  wire fd (tr1 ++ tr2) = wire fd tr1 ++ wire fd tr2.
Proof.
  induction tr1 as [|e tr1 IH]; simpl; [reflexivity|].
  destruct e; rewrite ?IH; try reflexivity.
  destruct (fd0 =? fd); [rewrite <- app_assoc|]; reflexivity.
Qed.

(** ** [read_message] *)

(** The two programs carry the same helper functions. *)
Lemma client_read_message_same : Client2.read_message = Server2.read_message.
Proof. reflexivity. Qed.

Lemma client_send_message_same : Client2.send_message = Server2.send_message.
Proof. reflexivity. Qed.

Lemma client_compute_hmac_same : Client2.compute_hmac = Server2.compute_hmac.
Proof. reflexivity. Qed.

(** What a single [read] of at most 1024 bytes hands back. *)
Lemma sys_read_count (fd : Z) (buffer : list byte) (w : World) :
  exists n buffer' w',
    sys_read fd buffer 1024 w = (Ok (n, buffer'), w') /\
    n <= 1024 /\
    trace w' = trace w ++ [EvRead fd n].
Proof.
  unfold sys_read. destruct (inbound w) as [|[bs| |] rest].
  - do 3 eexists. split; [reflexivity|]. split; [lia|reflexivity].
  - do 3 eexists. split; [reflexivity|]. split; [|reflexivity].
    pose proof (firstn_le_length 1024 bs). lia.
  - do 3 eexists. split; [reflexivity|]. split; [lia|reflexivity].
  - do 3 eexists. split; [reflexivity|]. split; [lia|reflexivity].
Qed.

(** [read_message] on a segment: the first 1024 bytes of it, the rest
    stays in the socket. *)
Lemma read_message_data (sock : Z) (w : World) (bs : std_string) (rest : list delivery) :
  inbound w = Data bs :: rest ->
  Server2.read_message sock w =
  (Ok (firstn 1024 bs),
   log (EvRead sock (Z.of_nat (List.length (firstn 1024 bs))))
       (set_inbound (match skipn 1024 bs with
                     | [] => rest
                     | _ => Data (skipn 1024 bs) :: rest
                     end) w)).
Proof.
  intros Hin. unfold Server2.read_message, bind, sys_read. rewrite Hin.
  cbv zeta.
  destruct (firstn 1024 bs) as [|b got] eqn:Hgot.
  - reflexivity.
  - rewrite <- Hgot.
    replace (Z.of_nat (List.length (firstn 1024 bs)) >? 0) with true.
    + unfold ret. rewrite Nat2Z.id, fill_prefix. reflexivity.
    + symmetry. apply Z.gtb_lt. rewrite Hgot. simpl List.length. lia.
Qed.

Lemma read_message_no_data (sock : Z) (w : World) (n : Z) (buffer' : list byte) (w' : World) :
  sys_read sock (zeroed 1024) 1024 w = (Ok (n, buffer'), w') ->
  n <= 0 ->
  Server2.read_message sock w = (Ok [], w').
Proof.
  intros Hread Hn. unfold Server2.read_message, bind. rewrite Hread.
  destruct (Z.gtb_spec n 0); [lia|reflexivity].
Qed.

(** [read_message] always returns normally. *)
Lemma read_message_total (sock : Z) (w : World) :
  exists msg w', Server2.read_message sock w = (Ok msg, w').
Proof.
  unfold Server2.read_message, bind.
  destruct (sys_read_count sock (zeroed 1024) w) as (n & b & w' & Hread & _ & _).
  rewrite Hread. destruct (n >? 0); do 2 eexists; reflexivity.
Qed.

Lemma read_message_trace (sock : Z) (w : World) (r : outcome std_string) (w' : World) :
  Server2.read_message sock w = (r, w') ->
  exists n, trace w' = trace w ++ [EvRead sock n].
Proof.
  unfold Server2.read_message, bind.
  destruct (sys_read_count sock (zeroed 1024) w) as (n & b & w1 & Hread & _ & Htr).
  rewrite Hread. destruct (n >? 0); unfold ret; intros [= _ <-]; eauto.
Qed.

(** C9: when the underlying [read] returns zero (peer closed) or a negative
    count (failure), [read_message] returns the empty string, in the server
    and in the client, and throws nothing.  Any two such outcomes give the
    caller the same value, which is also what reading an empty message
    (no bytes on the wire) gives. *)
Theorem read_message_closed_or_failed_is_empty
  (sock : Z) (w : World) (n : Z) (buffer' : list byte) (w' : World) :
  sys_read sock (zeroed 1024) 1024 w = (Ok (n, buffer'), w') ->
  n <= 0 ->
  Server2.read_message sock w = (Ok [], w') /\
  Client2.read_message sock w = (Ok [], w') /\
  (forall what, fst (Server2.read_message sock w) <> Throw what) /\
  (forall w2 n2 b2 w2',
      sys_read sock (zeroed 1024) 1024 w2 = (Ok (n2, b2), w2') ->
      n2 <= 0 ->
      fst (Server2.read_message sock w2) = fst (Server2.read_message sock w)) /\
  (forall cuts w3,
      fst (Server2.read_message sock (set_inbound (segments cuts []) w3)) =
      fst (Server2.read_message sock w)).
Proof.
  intros Hread Hn.
  pose proof (read_message_no_data sock w n buffer' w' Hread Hn) as H.
  repeat split.
  - exact H.
  - exact H.
  - intros what. rewrite H. discriminate.
  - intros w2 n2 b2 w2' Hread2 Hn2.
    rewrite (read_message_no_data sock w2 n2 b2 w2' Hread2 Hn2), H. reflexivity.
  - intros cuts w3. rewrite H. destruct cuts; reflexivity.
Qed.

(** The hypotheses of C9 hold on a connection the peer has closed. *)
Lemma read_message_closed_or_failed_is_empty_witness :
  Server2.read_message 4 (machine [Eof] 1) =
  (Ok [], log (EvRead 4 0) (set_inbound [] (machine [Eof] 1))).
Proof.
  apply (read_message_closed_or_failed_is_empty
           4 (machine [Eof] 1) 0 (zeroed 1024)
           (log (EvRead 4 0) (set_inbound [] (machine [Eof] 1)))).
  - reflexivity.
  - lia.
Defined.

(** A failed [read] (count -1) and a closed connection look the same. *)
Example read_message_error_vs_eof :
  fst (Server2.read_message 4 (machine [Err] 1)) =
  fst (Server2.read_message 4 (machine [Eof] 1)).
Proof. reflexivity. Qed.

(** C6 as claimed fails: a frame that declares 4096 bytes is not refused.
    [read_message] returns normally with the first 1024 bytes on the wire,
    the length field and 1020 bytes of the payload among them, and leaves
    the remainder in the socket for the next read. *)
Lemma oversized_frame_is_read_not_refused :
  firstn 4 oversized = be32 4096 /\
  4096 > 1024 /\
  exists msg w',
    Server2.read_message 4 (machine [Data oversized] 1) = (Ok msg, w') /\
    msg = firstn 1024 oversized /\
    List.length msg = 1024%nat /\
    inbound w' = [Data (skipn 1024 oversized)] /\
    forall what, Ok msg <> Throw what.
Proof.
  split; [reflexivity|]. split; [lia|].
  do 2 eexists. split.
  - apply (read_message_data 4 _ oversized []). reflexivity.
  - repeat split; try discriminate; vm_compute; reflexivity.
Qed.

(** C6, amended: [read_message] knows no declared length and no
    configured maximum and never fails.  It returns at most 1024 bytes,
    the size of its buffer; of a longer segment it returns the first 1024
    bytes and leaves the rest in the socket. *)
Theorem read_message_truncates_at_1024 (sock : Z) (w : World) :
  exists msg w',
    Server2.read_message sock w = (Ok msg, w') /\
    Client2.read_message sock w = (Ok msg, w') /\
    (List.length msg <= 1024)%nat /\
    forall bs rest,
      inbound w = Data bs :: rest ->
      msg = firstn 1024 bs /\
      inbound w' = match skipn 1024 bs with
                   | [] => rest
                   | _ => Data (skipn 1024 bs) :: rest
                   end.
Proof.
  destruct (inbound w) as [|[bs| |] rest] eqn:Hin.
  - exists [], (log (EvRead sock 0) w).
    unfold Client2.read_message, Server2.read_message, bind, sys_read.
    rewrite Hin. repeat split; simpl; try lia; discriminate.
  - rewrite client_read_message_same, (read_message_data sock w bs rest Hin).
    do 2 eexists. repeat split.
    + apply firstn_le_length.
    + injection H as <- <-. reflexivity.
    + injection H as <- <-. reflexivity.
  - exists [], (log (EvRead sock 0) (set_inbound rest w)).
    unfold Client2.read_message, Server2.read_message, bind, sys_read.
    rewrite Hin. repeat split; simpl; try lia; discriminate.
  - exists [], (log (EvRead sock (-1)) (set_inbound rest w)).
    unfold Client2.read_message, Server2.read_message, bind, sys_read.
    rewrite Hin. repeat split; simpl; try lia; discriminate.
Qed.

(** ** [compute_hmac] *)

Lemma compute_hmac_cases (data key : std_string) (w : World) :
  Server2.compute_hmac data key w =
  match HMAC_sha1 w key (to_int (size key)) data (size data) with
  | Some p => (Ok (string_at p 20), w)
  | None => (Throw "HMAC computation failed", w)
  end.
Proof.
  unfold Server2.compute_hmac, HMAC, bind, ask, ret, throw. cbv zeta.
  destruct (HMAC_sha1 w key (to_int (size key)) data (size data)); reflexivity.
Qed.

Lemma compute_hmac_pure (data key : std_string) (w : World)
      (r : outcome std_string) (w' : World) :
  Server2.compute_hmac data key w = (r, w') -> w' = w.
Proof.
  rewrite compute_hmac_cases.
  destruct (HMAC_sha1 w key (to_int (size key)) data (size data));
    intros [= _ <-]; reflexivity.
Qed.

Lemma compute_hmac_run (data key : std_string) (w : World) (digest : std_string) :
  fst (Server2.compute_hmac data key w) = Ok digest ->
  Server2.compute_hmac data key w = (Ok digest, w).
Proof.
  destruct (Server2.compute_hmac data key w) as [r w'] eqn:E.
  apply compute_hmac_pure in E. simpl. intros ->. rewrite E. reflexivity.
Qed.

(** C10: [compute_hmac] either throws or returns exactly 20 bytes; it
    leaves the world as it found it, so a second invocation with the same
    data and key gives the identical result, and so does any invocation
    against the same libcrypto.  The client's copy is the same function. *)
Theorem compute_hmac_twenty_bytes_deterministic (data key : std_string) (w : World) :
  let r := Server2.compute_hmac data key w in
  snd r = w /\
  Client2.compute_hmac data key w = r /\
  ((exists digest, fst r = Ok digest /\ List.length digest = 20%nat) \/
   fst r = Throw "HMAC computation failed") /\
  Server2.compute_hmac data key (snd r) = r /\
  (forall w2, HMAC_sha1 w2 = HMAC_sha1 w ->
              fst (Server2.compute_hmac data key w2) = fst r).
Proof.
  cbv zeta. rewrite client_compute_hmac_same.
  assert (Hw : snd (Server2.compute_hmac data key w) = w).
  { destruct (Server2.compute_hmac data key w) as [r w'] eqn:E.
    apply compute_hmac_pure in E. exact E. }
  split; [exact Hw|]. split; [reflexivity|]. rewrite Hw.
  split; [|split; [reflexivity|]].
  - rewrite compute_hmac_cases.
    destruct (HMAC_sha1 w key (to_int (size key)) data (size data)) as [p|].
    + left. eexists. split; [reflexivity|]. apply string_at_length.
    + right. reflexivity.
  - intros w2 Hsame. rewrite !compute_hmac_cases, Hsame.
    destruct (HMAC_sha1 w key (to_int (size key)) data (size data)); reflexivity.
Qed.

(** ** [generate_challenge] *)

Lemma to_int_small (n : Z) : 0 <= n < 2 ^ 31 -> to_int n = n.
Proof.
  intros H. unfold to_int. rewrite Z.mod_small; lia.
Qed.

Lemma zeroed_length (n : nat) : List.length (zeroed n) = n.
Proof. apply repeat_length. Qed.


(** [RAND_bytes] answers 0: the exception, and no challenge. *)
Lemma generate_challenge_failure (length : Z) (w : World) :
  rand_status w = 0 ->
  Server2.generate_challenge length w =
  (Throw "Failed to generate random challenge", log (EvRand (to_int length)) w).
Proof.
  intros H0.
  unfold Server2.generate_challenge, RAND_bytes, bind, emit, ask, ret, throw.
  simpl. rewrite H0. reflexivity.
Qed.

(** [RAND_bytes] answers 1 and the length fits the buffer: the next
    [length] bytes of the secure generator. *)
Lemma generate_challenge_success (length : Z) (w : World) :
  rand_status w = 1 ->
  0 <= length <= 64 ->
  Server2.generate_challenge length w =
  (Ok (map (entropy w) (seq (drawn w) (Z.to_nat length))),
   set_drawn (drawn w + Z.to_nat length) (log (EvRand length) w)).
Proof.
  intros H1 Hlen.
  unfold Server2.generate_challenge, RAND_bytes, string_from, bind, emit, ask,
    ret, throw, undefined.
  rewrite to_int_small by lia. simpl. rewrite H1. simpl.
  destruct (Z.gtb_spec length 64) as [Hbig|_]; [lia|].
  simpl. rewrite fill_length
    by (rewrite length_map, length_seq, zeroed_length; lia).
  rewrite zeroed_length.
  destruct (Z.gtb_spec length (Z.of_nat 64)) as [Hbig|_]; [lia|].
  replace (Z.to_nat length)
    with (List.length (map (entropy w) (seq (drawn w) (Z.to_nat length)))) at 2
    by (rewrite length_map, length_seq; reflexivity).
  rewrite fill_prefix. reflexivity.
Qed.

(** [RAND_bytes] answers neither 0 nor 1 (libcrypto documents -1 for a
    generator that is not supported): the test [!RAND_bytes(...)] lets it
    pass and the untouched buffer is returned. *)
Lemma generate_challenge_unchecked_status (length : Z) (w : World) :
  rand_status w <> 0 ->
  rand_status w <> 1 ->
  0 <= length <= 64 ->
  Server2.generate_challenge length w =
  (Ok (string_of_buffer (zeroed 64) (Z.to_nat length)), log (EvRand length) w).
Proof.
  intros H0 H1 Hlen.
  unfold Server2.generate_challenge, RAND_bytes, string_from, bind, emit, ask,
    ret, throw, undefined.
  rewrite to_int_small by lia. simpl.
  destruct (Z.eqb_spec (rand_status w) 1) as [E|_]; [contradiction|].
  destruct (Z.eqb_spec (rand_status w) 0) as [E|_]; [contradiction|].
  change (Z.of_nat (List.length (zeroed 64))) with 64.
  destruct (Z.gtb_spec length 64) as [Hbig|_]; [lia|]. reflexivity.
Qed.



Lemma string_of_buffer_length (buffer : list byte) (n : nat) :
  (n <= List.length buffer)%nat ->
  List.length (string_of_buffer buffer n) = n.
Proof. intros H. unfold string_of_buffer. rewrite length_firstn. lia. Qed.

(** A returned challenge for a length that fits: [length] bytes, the
    leading ones of the 64-byte array. *)
Lemma generate_challenge_from_buffer
      (length : Z) (w : World) (challenge : std_string) (w' : World) :
  0 <= length <= 64 ->
  Server2.generate_challenge length w = (Ok challenge, w') ->
  size challenge = length /\
  exists buffer,
    List.length buffer = 64%nat /\
    challenge = string_of_buffer buffer (Z.to_nat length).
Proof.
  intros Hlen Hrun.
  assert (Hbuf : exists buffer, List.length buffer = 64%nat /\
                   challenge = string_of_buffer buffer (Z.to_nat length)).
  { destruct (Z.eq_dec (rand_status w) 0) as [E0|E0].
    - rewrite generate_challenge_failure in Hrun by exact E0. discriminate.
    - destruct (Z.eq_dec (rand_status w) 1) as [E1|E1].
      + exists (fill (zeroed 64)
                     (map (entropy w) (seq (drawn w) (Z.to_nat length)))).
        split.
        * rewrite fill_length; [apply zeroed_length|].
          rewrite length_map, length_seq, zeroed_length. lia.
        * rewrite generate_challenge_success in Hrun by assumption.
          injection Hrun as <- _.
          replace (Z.to_nat length)
            with (List.length (map (entropy w) (seq (drawn w) (Z.to_nat length)))) at 3
            by (rewrite length_map, length_seq; reflexivity).
          rewrite fill_prefix. reflexivity.
      + exists (zeroed 64). split; [apply zeroed_length|].
        rewrite generate_challenge_unchecked_status in Hrun by assumption.
        injection Hrun as <- _. reflexivity. }
  split; [|exact Hbuf].
  destruct Hbuf as (buffer & Hsz & ->).
  unfold size. rewrite string_of_buffer_length by lia. lia.
Qed.




(** One byte too many: the write of 65 random bytes does not fit. *)
Example generate_challenge_65 :
  fst (Server2.generate_challenge 65 (machine [] 1)) =
  Undefined "RAND_bytes writes past the end of buffer".
Proof. reflexivity. Qed.

(** The full buffer can be asked for. *)
Example generate_challenge_64 :
  fst (Server2.generate_challenge 64 (machine [] 1)) =
  Ok (map sample_entropy (seq 0 64)).
Proof. vm_compute. reflexivity. Qed.

(** ** [handle_client] *)

(** One pass through [handle_client] along the path on which nothing
    throws: the verdict is chosen by the comparison of the two digests. *)
Lemma handle_client_run
      (sock : Z) (w : World) (hello : std_string) (w1 : World)
      (challenge : std_string) (w2 : World)
      (client_digest : std_string) (w3 : World)
      (expected_digest : std_string) (w4 : World) :
  Server2.read_message sock w = (Ok hello, w1) ->
  Server2.generate_challenge Server2.default_length
    (log (EvStdout (lit "Client: " ++ hello ++ endl)) w1) = (Ok challenge, w2) ->
  Server2.read_message sock (log (EvSend sock challenge) w2) = (Ok client_digest, w3) ->
  Server2.compute_hmac challenge Server2.SHARED_SECRET w3 = (Ok expected_digest, w4) ->
  Server2.handle_client sock w =
  (Ok tt,
   log (EvClose sock)
       (log (EvSend sock (if string_eqb client_digest expected_digest
                          then Server2.success else Server2.failure)) w4)).
Proof.
  intros Hhello Hchal Hdigest Hmac.
  unfold Server2.handle_client, bind.
  rewrite Hhello. unfold cout, emit at 1.
  rewrite Hchal. unfold Server2.send_message, sys_send, emit at 1.
  rewrite Hdigest, Hmac. reflexivity.
Qed.

(** C1: the comparison of a tag with the output of [compute_hmac] for the
    same challenge and secret is true, for every secret and challenge;
    when the digest the server receives equals the one it computes, it
    answers with the success verdict; and the digest the client computes
    for a challenge is the one a server with the same libcrypto expects. *)
Theorem matching_digest_is_authenticated :
  (forall S C w expected w',
      Server2.compute_hmac C S w = (Ok expected, w') ->
      forall T, T = expected -> string_eqb T expected = true) /\
  (forall sock w hello w1 challenge w2 client_digest w3 expected_digest w4,
      Server2.read_message sock w = (Ok hello, w1) ->
      Server2.generate_challenge Server2.default_length
        (log (EvStdout (lit "Client: " ++ hello ++ endl)) w1) = (Ok challenge, w2) ->
      Server2.read_message sock (log (EvSend sock challenge) w2) =
        (Ok client_digest, w3) ->
      Server2.compute_hmac challenge Server2.SHARED_SECRET w3 =
        (Ok expected_digest, w4) ->
      client_digest = expected_digest ->
      Server2.handle_client sock w =
      (Ok tt, log (EvClose sock) (log (EvSend sock Server2.success) w4))) /\
  (forall C wc digest wc' ws,
      Client2.compute_hmac C Client2.SHARED_SECRET wc = (Ok digest, wc') ->
      HMAC_sha1 ws = HMAC_sha1 wc ->
      Server2.compute_hmac C Server2.SHARED_SECRET ws = (Ok digest, ws)).
Proof.
  split; [|split].
  - intros S C w expected w' _ T ->. apply string_eqb_refl.
  - intros sock w hello w1 challenge w2 client_digest w3 expected_digest w4
           Hhello Hchal Hdigest Hmac ->.
    rewrite (handle_client_run _ _ _ _ _ _ _ _ _ _ Hhello Hchal Hdigest Hmac).
    rewrite string_eqb_refl. reflexivity.
  - intros C wc digest wc' ws Hc Hsame.
    rewrite client_compute_hmac_same in Hc.
    change Client2.SHARED_SECRET with Server2.SHARED_SECRET in Hc.
    rewrite compute_hmac_cases in Hc. rewrite compute_hmac_cases, Hsame.
    destruct (HMAC_sha1 wc Server2.SHARED_SECRET
                        (to_int (size Server2.SHARED_SECRET)) C (size C));
      [|discriminate].
    injection Hc as <- _. reflexivity.
Qed.

(** C1 on the session with the honest Prover: the hypotheses hold there
    and the server answers with the success verdict. *)
Lemma matching_digest_is_authenticated_witness :
  fst (Server2.handle_client 4 honest_session) = Ok tt /\
  wire 4 (trace (snd (Server2.handle_client 4 honest_session))) =
  sample_challenge ++ Server2.success.
Proof.
  pose (w1 := snd (Server2.read_message 4 honest_session)).
  pose (w2 := snd (Server2.generate_challenge Server2.default_length
                     (log (EvStdout (lit "Client: " ++ lit "hello" ++ endl)) w1))).
  pose (w3 := snd (Server2.read_message 4 (log (EvSend 4 sample_challenge) w2))).
  pose (tag := tag_of Server2.SHARED_SECRET sample_challenge).
  assert (H : Server2.handle_client 4 honest_session =
              (Ok tt, log (EvClose 4) (log (EvSend 4 Server2.success) w3))).
  { apply (proj1 (proj2 matching_digest_is_authenticated)
                 4 honest_session (lit "hello") w1 sample_challenge w2 tag w3 tag w3).
    - by_running.
    - by_running.
    - by_running.
    - apply compute_hmac_run. vm_compute. reflexivity.
    - reflexivity. }
  rewrite H. split; vm_compute; reflexivity.
Defined.

(** A run that SIGPIPE does not end takes place as recorded. *)
Lemma observed_from_not_killed (reset : nat -> bool) (tr : list event) (k : nat) :
  killed_from reset k tr = false -> observed_from reset k tr = tr.
Proof.
  revert k. induction tr as [|e tr IH]; intros k; [reflexivity|].
  destruct e; cbn [killed_from observed_from];
    try (intros H; rewrite (IH _ H); reflexivity).
  destruct (reset k); [discriminate|].
  intros H. rewrite (IH _ H). reflexivity.
Qed.

Lemma observed_not_killed (reset : nat -> bool) (tr : list event) :
  killed reset tr = false -> observed reset tr = tr.
Proof. apply observed_from_not_killed. Qed.

(** On a connection that is never reset no run is ended by SIGPIPE. *)
Lemma never_reset_never_kills (tr : list event) (k : nat) :
  killed_from never_reset k tr = false.
Proof.
  revert k. induction tr as [|e tr IH]; intros k; [reflexivity|].
  destruct e; cbn [killed_from]; apply IH.
Qed.

(** C2 as claimed fails.  The peer closes without sending anything: the
    candidate tag is the empty string, which differs from the expected
    digest, and the program goes on to call [send] with the failure
    verdict.  The challenge had been written to the closed connection, so
    by the time of that second [send] the connection is reset: the call
    raises SIGPIPE and the process ends there.  The only message that has
    gone out is the challenge; no verdict is sent and [close] is never
    called. *)
Lemma reset_connection_gets_no_verdict :
  let w := machine [Eof; Eof] 1 in
  let w' := snd (Server2.handle_client 4 w) in
  fst (Server2.read_message 4
         (log (EvSend 4 sample_challenge)
              (snd (Server2.generate_challenge Server2.default_length
                      (log (EvStdout (lit "Client: " ++ [] ++ endl))
                           (snd (Server2.read_message 4 w))))))) = Ok [] /\
  fst (Server2.compute_hmac sample_challenge Server2.SHARED_SECRET w) =
    Ok (tag_of Server2.SHARED_SECRET sample_challenge) /\
  [] <> tag_of Server2.SHARED_SECRET sample_challenge /\
  sends 4 (trace w') = [sample_challenge; Server2.failure] /\
  killed reset_after_first_send (trace w') = true /\
  sends 4 (observed reset_after_first_send (trace w')) = [sample_challenge] /\
  closes 4 (observed reset_after_first_send (trace w')) = 0%nat.
Proof.
  cbv zeta. repeat split; try (vm_compute; reflexivity).
  apply string_eqb_neq. vm_compute. reflexivity.
Qed.

(** C2, amended: a tag that differs from the output of [compute_hmac]
    compares unequal, for every secret and challenge, and the mismatch is
    not an error: the server chooses the failure verdict.  Unless SIGPIPE
    ends the process at a [send] on a connection that has been reset, the
    server returns normally, and the last things that happen are the
    [send] of the failure verdict and, after it, the [close] of the
    connection. *)
Theorem mismatching_digest_is_rejected_unless_killed :
  (forall S C w expected w',
      Server2.compute_hmac C S w = (Ok expected, w') ->
      forall T, T <> expected -> string_eqb T expected = false) /\
  (forall sock w hello w1 challenge w2 client_digest w3 expected_digest w4 reset,
      Server2.read_message sock w = (Ok hello, w1) ->
      Server2.generate_challenge Server2.default_length
        (log (EvStdout (lit "Client: " ++ hello ++ endl)) w1) = (Ok challenge, w2) ->
      Server2.read_message sock (log (EvSend sock challenge) w2) =
        (Ok client_digest, w3) ->
      Server2.compute_hmac challenge Server2.SHARED_SECRET w3 =
        (Ok expected_digest, w4) ->
      client_digest <> expected_digest ->
      killed reset (trace (snd (Server2.handle_client sock w))) = false ->
      fst (Server2.handle_client sock w) = Ok tt /\
      observed reset (trace (snd (Server2.handle_client sock w))) =
        trace w4 ++ [EvSend sock Server2.failure; EvClose sock]).
Proof.
  split.
  - intros S C w expected w' _ T Hne. apply string_eqb_false. exact Hne.
  - intros sock w hello w1 challenge w2 client_digest w3 expected_digest w4 reset
           Hhello Hchal Hdigest Hmac Hne Halive.
    rewrite (observed_not_killed _ _ Halive).
    rewrite (handle_client_run _ _ _ _ _ _ _ _ _ _ Hhello Hchal Hdigest Hmac).
    rewrite (string_eqb_false _ _ Hne).
    split; [reflexivity|].
    cbn [snd trace log]. rewrite <- app_assoc. reflexivity.
Qed.

(** The key "wrong" gives another tag over the sample challenge than the
    server's secret does. *)
Lemma wrong_key_wrong_tag :
  tag_of (lit "wrong") sample_challenge <>
  tag_of Server2.SHARED_SECRET sample_challenge.
Proof. apply string_eqb_neq. vm_compute. reflexivity. Qed.

(** The amended C2 on the session with the Prover that holds the key
    "wrong", on a connection that is not reset. *)
Lemma mismatching_digest_is_rejected_unless_killed_witness :
  let w' := snd (Server2.handle_client 4 wrong_session) in
  fst (Server2.handle_client 4 wrong_session) = Ok tt /\
  sends 4 (observed never_reset (trace w')) = [sample_challenge; Server2.failure] /\
  closes 4 (observed never_reset (trace w')) = 1%nat.
Proof.
  cbv zeta.
  pose (w1 := snd (Server2.read_message 4 wrong_session)).
  pose (w2 := snd (Server2.generate_challenge Server2.default_length
                     (log (EvStdout (lit "Client: " ++ lit "hello" ++ endl)) w1))).
  pose (w3 := snd (Server2.read_message 4 (log (EvSend 4 sample_challenge) w2))).
  destruct (proj2 mismatching_digest_is_rejected_unless_killed
                  4 wrong_session (lit "hello") w1 sample_challenge w2
                  (tag_of (lit "wrong") sample_challenge) w3
                  (tag_of Server2.SHARED_SECRET sample_challenge) w3 never_reset)
    as (Hrun & Hobs).
  - by_running.
  - by_running.
  - by_running.
  - apply compute_hmac_run. vm_compute. reflexivity.
  - exact wrong_key_wrong_tag.
  - apply never_reset_never_kills.
  - split; [exact Hrun|].
    rewrite Hobs. split; vm_compute; reflexivity.
Defined.

(** ** Closing the connection *)

Lemma string_of_zeroed (m n : nat) :
  (n <= m)%nat -> string_of_buffer (zeroed m) n = zeroed n.
Proof.
  unfold string_of_buffer, zeroed. revert m.
  induction n as [|n IH]; intros [|m] H; simpl; try reflexivity; try lia.
  rewrite IH by lia. reflexivity.
Qed.

(** With the default length, [generate_challenge] either throws (status 0)
    or returns; it never leaves the buffer. *)
Lemma generate_challenge_default (w : World) :
  exists r w',
    Server2.generate_challenge Server2.default_length w = (r, w') /\
    trace w' = trace w ++ [EvRand 16] /\
    HMAC_sha1 w' = HMAC_sha1 w /\
    (rand_status w = 0 -> r = Throw "Failed to generate random challenge") /\
    (rand_status w <> 0 -> exists challenge,
        r = Ok challenge /\ List.length challenge = 16%nat).
Proof.
  unfold Server2.default_length.
  destruct (Z.eq_dec (rand_status w) 0) as [E0|E0].
  - rewrite generate_challenge_failure by exact E0.
    do 2 eexists. split; [reflexivity|]. repeat split; try reflexivity.
    intros H. contradiction.
  - destruct (Z.eq_dec (rand_status w) 1) as [E1|E1].
    + rewrite generate_challenge_success by (assumption || lia).
      do 2 eexists. split; [reflexivity|]. repeat split; try reflexivity.
      * intros H. contradiction.
      * intros _. eexists. split; [reflexivity|].
        rewrite length_map, length_seq. reflexivity.
    + rewrite generate_challenge_unchecked_status by (assumption || lia).
      do 2 eexists. split; [reflexivity|]. repeat split; try reflexivity.
      * intros H. contradiction.
      * intros _. eexists. split; [reflexivity|]. reflexivity.
Qed.

(** [handle_client] closes the connection once when it returns, and not at
    all when it is left by an exception. *)
Lemma handle_client_closes (sock : Z) (w : World) :
  match Server2.handle_client sock w with
  | (Ok _, w') => closes sock (trace w') = S (closes sock (trace w))
  | (Throw _, w') => closes sock (trace w') = closes sock (trace w)
  | (Undefined _, _) => False
  end.
Proof.
  unfold Server2.handle_client, bind.
  destruct (read_message_total sock w) as (hello & w1 & H1).
  destruct (read_message_trace _ _ _ _ H1) as (n1 & T1).
  rewrite H1. unfold cout, emit at 1.
  match goal with
  | |- context [Server2.generate_challenge _ ?W] =>
      destruct (generate_challenge_default W) as (r & w2 & H2 & T2 & _ & Hthrow & Hok);
      rewrite H2
  end.
  simpl in T2, Hthrow, Hok.
  destruct (Z.eq_dec (rand_status w1) 0) as [E0|E0].
  - rewrite (Hthrow E0). rewrite T2, T1, !closes_app. simpl. lia.
  - destruct (Hok E0) as (challenge & -> & _).
    unfold Server2.send_message, sys_send, emit at 1.
    match goal with
    | |- context [Server2.read_message sock ?W] =>
        destruct (read_message_total sock W) as (digest & w3 & H3);
        destruct (read_message_trace _ _ _ _ H3) as (n3 & T3);
        rewrite H3
    end.
    simpl in T3.
    rewrite compute_hmac_cases.
    destruct (HMAC_sha1 w3 _ _ _ _).
    + simpl. rewrite T3, T2, T1, !closes_app. simpl.
      rewrite Z.eqb_refl. lia.
    + rewrite T3, T2, T1, !closes_app. simpl. lia.
Qed.

(** C7, at the failing inputs: when [RAND_bytes] answers 0, or when [HMAC]
    returns NULL, [handle_client] is left by the exception and [main]
    catches it, prints it and returns 0; neither the connection (4) nor the
    listening socket (3) has been closed. *)
Theorem exception_leaves_connection_open :
  let w := machine [Data (lit "hello")] 0 in
  let v := machine_no_hmac [Data (lit "hello"); Data (zeroed 20)] in
  fst (Server2.handle_client 4 w) = Throw "Failed to generate random challenge" /\
  closes 4 (trace (snd (Server2.handle_client 4 w))) = 0%nat /\
  fst (Server2.main w) = Ok 0 /\
  closes 4 (trace (snd (Server2.main w))) = 0%nat /\
  closes 3 (trace (snd (Server2.main w))) = 0%nat /\
  fst (Server2.handle_client 4 v) = Throw "HMAC computation failed" /\
  fst (Server2.main v) = Ok 0 /\
  closes 4 (trace (snd (Server2.main v))) = 0%nat.
Proof. vm_compute. repeat split. Qed.

(** On the sessions that run to a verdict the connection is closed once. *)
Example verdict_sessions_close_once :
  closes 4 (trace (snd (Server2.main honest_session))) = 1%nat /\
  closes 4 (trace (snd (Server2.main wrong_session))) = 1%nat /\
  closes 4 (trace (snd (Server2.main (machine [Eof; Err] 1)))) = 1%nat.
Proof. vm_compute. repeat split. Qed.

(** C5, at the failing input: [RAND_bytes] answers -1.  The test
    [!RAND_bytes(...)] does not see it; no exception is thrown, nothing is
    drawn from the secure generator, and the zero-initialised buffer goes
    out as the challenge. *)
Theorem unsupported_rand_gives_zero_challenge :
  let w := machine [Data (lit "hello"); Eof] (-1) in
  Server2.generate_challenge Server2.default_length w =
    (Ok (zeroed 16), log (EvRand 16) w) /\
  drawn (snd (Server2.generate_challenge Server2.default_length w)) = drawn w /\
  fst (Server2.handle_client 4 w) = Ok tt /\
  wire 4 (trace (snd (Server2.handle_client 4 w))) = zeroed 16 ++ Server2.failure.
Proof.
  cbv zeta. split.
  - unfold Server2.default_length.
    rewrite generate_challenge_unchecked_status; [reflexivity| | |lia];
      simpl; discriminate.
  - vm_compute. repeat split.
Qed.

(** ** Framing *)

Lemma firstn_firstn_le (n m : nat) (bs : std_string) :
  (List.length bs <= m)%nat -> firstn m (firstn n bs) = firstn n bs.
Proof.
  intros H. apply firstn_all2. rewrite length_firstn. lia.
Qed.

(** What [read_message] returns for the head of a segmented stream. *)
Lemma read_message_segments (sock : Z) (w : World) (cuts : list nat) (B : std_string) :
  (List.length B <= 1024)%nat ->
  fst (Server2.read_message sock (set_inbound (segments cuts B) w)) =
  Ok (match cuts with
      | [] => B
      | n :: _ => firstn n B
      end).
Proof.
  intros Hlen. destruct B as [|b B].
  - destruct cuts as [|[|n] cuts]; reflexivity.
  - destruct cuts as [|n cuts].
    + rewrite (read_message_data sock _ (b :: B) []) by reflexivity.
      cbn [fst]. rewrite firstn_all2 by exact Hlen. reflexivity.
    + rewrite (read_message_data sock _ (firstn n (b :: B))
                 (segments cuts (skipn n (b :: B)))) by reflexivity.
      cbn [fst]. rewrite firstn_firstn_le by exact Hlen. reflexivity.
Qed.

(** C3 as claimed fails.  What [send_message] puts on the wire for "hello"
    is the five bytes themselves, not the frame with its 4-byte length; and
    when the transport delivers them as "he" and "llo", [read_message]
    returns "he". *)
Lemma split_delivery_breaks_round_trip :
  let sender := snd (Client2.send_message 3 (lit "hello") (machine [] 1)) in
  let receiver := machine (segments [2%nat] (wire 3 (trace sender))) 1 in
  (List.length (lit "hello") <= 1024)%nat /\
  wire 3 (trace sender) = lit "hello" /\
  wire 3 (trace sender) <> frame (lit "hello") /\
  fst (Server2.read_message 4 receiver) = Ok (lit "he") /\
  fst (Server2.read_message 4 receiver) <> Ok (lit "hello").
Proof.
  cbv zeta. split; [simpl; lia|]. split; [reflexivity|].
  split; [vm_compute; discriminate|].
  split; [reflexivity|]. vm_compute. discriminate.
Qed.

(** C3, amended: there is no length prefix.  [send_message] hands exactly
    the bytes of the message to one [send]; [read_message] makes one [read]
    of at most 1024 bytes and returns what it delivered.  So a message of
    at most 1024 bytes comes back unchanged when the transport delivers it
    whole, and cut short to the first segment when the transport splits it. *)
Theorem unframed_round_trip (B : std_string) (fd sock : Z) (ws wr : World) :
  (List.length B <= 1024)%nat ->
  wire fd (trace ws) = [] ->
  let ws' := snd (Server2.send_message fd B ws) in
  trace ws' = trace ws ++ [EvSend fd B] /\
  wire fd (trace ws') = B /\
  fst (Server2.read_message sock
         (set_inbound (segments [] (wire fd (trace ws'))) wr)) = Ok B /\
  (forall n cuts,
      fst (Server2.read_message sock
             (set_inbound (segments (n :: cuts) (wire fd (trace ws'))) wr)) =
      Ok (firstn n B)).
Proof.
  intros Hlen Hfresh. cbv zeta.
  assert (Hwire : wire fd (trace (snd (Server2.send_message fd B ws))) = B).
  { simpl. rewrite wire_app, Hfresh. simpl.
    rewrite Z.eqb_refl. apply app_nil_r. }
  split; [reflexivity|]. split; [exact Hwire|]. rewrite Hwire.
  split.
  - apply (read_message_segments sock wr [] B Hlen).
  - intros n cuts. apply (read_message_segments sock wr (n :: cuts) B Hlen).
Qed.

(** The amended C3 on "hello" sent over a fresh connection. *)
Lemma unframed_round_trip_witness :
  fst (Server2.read_message 4
         (set_inbound
            (segments [] (wire 3 (trace (snd (Server2.send_message 3 (lit "hello")
                                                (machine [] 1))))))
            (machine [] 1))) = Ok (lit "hello").
Proof.
  apply (unframed_round_trip (lit "hello") 3 4 (machine [] 1) (machine [] 1)).
  - simpl. lia.
  - reflexivity.
Defined.

(** ** Whole sessions *)

(** The Prover and the Verifier with the same secret, each fed with what
    the other sends: the client greets and answers the challenge with the
    tag, the server issues the challenge and the success verdict. *)
Example end_to_end_success :
  let client := machine [Data sample_challenge; Data Server2.success] 1 in
  wire 3 (trace (snd (Client2.main client))) =
    lit "hello" ++ tag_of Client2.SHARED_SECRET sample_challenge /\
  wire 4 (trace (snd (Server2.main honest_session))) =
    sample_challenge ++ Server2.success /\
  inbound honest_session =
    [Data (lit "hello"); Data (tag_of Client2.SHARED_SECRET sample_challenge)].
Proof. vm_compute. repeat split. Qed.

(** A Prover with the key "wrong" is answered with the failure verdict,
    and the server's run ends there. *)
Example end_to_end_failure :
  fst (Server2.main wrong_session) = Ok 0 /\
  wire 4 (trace (snd (Server2.main wrong_session))) =
    sample_challenge ++ Server2.failure.
Proof. vm_compute. repeat split. Qed.

(** A peer that closes after the challenge is answered like a Prover with
    a wrong tag: the empty string is compared with the expected digest. *)
Example peer_closes_after_challenge :
  fst (Server2.main (machine [Data (lit "hello"); Eof] 1)) = Ok 0 /\
  wire 4 (trace (snd (Server2.main (machine [Data (lit "hello"); Eof] 1)))) =
    sample_challenge ++ Server2.failure.
Proof. vm_compute. repeat split. Qed.

(** * Further properties of the code *)

(** ** The effect of the helper functions on the world *)

Lemma server1_read_message_same : Server1.read_message = Server2.read_message.
Proof. reflexivity. Qed.

Lemma client1_read_message_same : Client1.read_message = Server2.read_message.
Proof. reflexivity. Qed.

(** [read_message] changes the pending input and adds one event. *)
Lemma read_message_world (sock : Z) (w : World) :
  exists msg n ds,
    Server2.read_message sock w =
    (Ok msg, log (EvRead sock n) (set_inbound ds w)) /\
    (List.length msg <= 1024)%nat /\
    size msg = Z.max 0 n.
Proof.
  destruct (inbound w) as [|[bs| |] rest] eqn:Hin.
  - exists [], 0, (inbound w).
    unfold Server2.read_message, bind, sys_read. rewrite Hin.
    split; [|split; [simpl; lia|reflexivity]].
    simpl. unfold ret, log, set_inbound. simpl. rewrite Hin. reflexivity.
  - rewrite (read_message_data sock w bs rest Hin).
    do 3 eexists. split; [reflexivity|]. split; [apply firstn_le_length|].
    unfold size. lia.
  - exists [], 0, rest.
    unfold Server2.read_message, bind, sys_read. rewrite Hin.
    split; [reflexivity|]. split; [simpl; lia|reflexivity].
  - exists [], (-1), rest.
    unfold Server2.read_message, bind, sys_read. rewrite Hin.
    split; [reflexivity|]. split; [simpl; lia|reflexivity].
Qed.

(** A segment that fits the buffer is read whole. *)
Lemma read_message_whole (sock : Z) (w : World) (m : std_string) (rest : list delivery) :
  inbound w = Data m :: rest ->
  (List.length m <= 1024)%nat ->
  Server2.read_message sock w =
  (Ok m, log (EvRead sock (size m)) (set_inbound rest w)).
Proof.
  intros Hin Hlen. rewrite (read_message_data sock w m rest Hin).
  rewrite firstn_all2 by exact Hlen.
  rewrite skipn_all2 by exact Hlen. reflexivity.
Qed.

(** With the default length and a status other than 0 the challenge is
    the next 16 bytes of the generator (status 1) or 16 zero bytes (any
    other status); only the generator position and the trace change. *)
Lemma generate_challenge_16 (w : World) :
  rand_status w <> 0 ->
  Server2.generate_challenge Server2.default_length w =
  (Ok (if rand_status w =? 1
       then map (entropy w) (seq (drawn w) 16)
       else zeroed 16),
   set_drawn (if rand_status w =? 1 then drawn w + 16 else drawn w)
             (log (EvRand 16) w)).
Proof.
  intros H0. unfold Server2.default_length.
  destruct (Z.eqb_spec (rand_status w) 1) as [E1|E1].
  - rewrite generate_challenge_success by (assumption || lia). reflexivity.
  - rewrite generate_challenge_unchecked_status by (assumption || lia).
    reflexivity.
Qed.

Lemma issued_challenge_length (w : World) :
  List.length (if rand_status w =? 1
               then map (entropy w) (seq (drawn w) 16)
               else zeroed 16) = 16%nat.
Proof.
  destruct (rand_status w =? 1).
  - rewrite length_map, length_seq. reflexivity.
  - reflexivity.
Qed.

(** Every run of [handle_client], event by event. *)
Lemma handle_client_trace (sock : Z) (w : World) :
  exists n1 hello,
    let pre := [EvRead sock n1; EvStdout (lit "Client: " ++ hello ++ endl);
                EvRand 16] in
    let c := if rand_status w =? 1
             then map (entropy w) (seq (drawn w) 16)
             else zeroed 16 in
    let mac := HMAC_sha1 w Server2.SHARED_SECRET
                 (to_int (size Server2.SHARED_SECRET)) c (size c) in
    (rand_status w = 0 /\
     exists w',
       Server2.handle_client sock w =
         (Throw "Failed to generate random challenge", w') /\
       trace w' = trace w ++ pre) \/
    (rand_status w <> 0 /\
     exists n2 digest w',
       size digest = Z.max 0 n2 /\
       ((mac = None /\
         Server2.handle_client sock w = (Throw "HMAC computation failed", w') /\
         trace w' = trace w ++ pre ++ [EvSend sock c; EvRead sock n2]) \/
        (exists p v,
            mac = Some p /\
            Server2.handle_client sock w = (Ok tt, w') /\
            v = (if string_eqb digest (string_at p 20)
                 then Server2.success else Server2.failure) /\
            trace w' = trace w ++ pre ++
                       [EvSend sock c; EvRead sock n2; EvSend sock v; EvClose sock]))).
Proof.
  unfold Server2.handle_client, bind.
  destruct (read_message_world sock w) as (hello & n1 & ds1 & H1 & _ & _).
  rewrite H1. unfold cout, emit.
  exists n1, hello. cbv zeta.
  destruct (Z.eq_dec (rand_status w) 0) as [E0|E0].
  - left. split; [exact E0|].
    rewrite generate_challenge_failure by exact E0.
    eexists. split; [reflexivity|].
    simpl. rewrite <- !app_assoc. reflexivity.
  - right. split; [exact E0|].
    rewrite generate_challenge_16 by exact E0.
    unfold Server2.send_message, sys_send, emit.
    cbn [rand_status entropy drawn log set_inbound].
    match goal with
    | |- context [Server2.read_message sock ?W] =>
        destruct (read_message_world sock W) as (digest & n2 & ds2 & H2 & _ & Hsz);
        rewrite H2
    end.
    rewrite compute_hmac_cases.
    cbn [HMAC_sha1 log set_inbound set_drawn].
    exists n2, digest.
    match goal with
    | |- context [match ?X with Some _ => _ | None => _ end] =>
        destruct X as [p|] eqn:Emac
    end.
    + eexists. split; [exact Hsz|]. right.
      exists p. eexists.
      split; [reflexivity|]. split; [reflexivity|]. split; [reflexivity|].
      simpl. rewrite <- !app_assoc. reflexivity.
    + eexists. split; [exact Hsz|]. left.
      split; [reflexivity|]. split; [reflexivity|].
      simpl. rewrite <- !app_assoc. reflexivity.
Qed.

(** A run whose outcome is known, with the world it ends in. *)
Lemma run_ok {A : Type} (r : outcome A * World) (v : A) :
  fst r = Ok v -> r = (Ok v, snd r).
Proof. destruct r as [o w]. simpl. intros ->. reflexivity. Qed.

Lemma sends_app (fd : Z) (tr1 tr2 : list event) :
  sends fd (tr1 ++ tr2) = sends fd tr1 ++ sends fd tr2.
Proof.
  induction tr1 as [|e tr1 IH]; simpl; [reflexivity|].
  destruct e as [? ?|fd' msg|?|?|?|?]; rewrite ?IH; try reflexivity.
  destruct (fd' =? fd); reflexivity.
Qed.

Lemma stderr_lines_app (tr1 tr2 : list event) :
  stderr_lines (tr1 ++ tr2) = stderr_lines tr1 ++ stderr_lines tr2.
Proof.
  induction tr1 as [|e tr1 IH]; simpl; [reflexivity|].
  destruct e; rewrite ?IH; reflexivity.
Qed.

Lemma stdout_lines_app (tr1 tr2 : list event) :
  stdout_lines (tr1 ++ tr2) = stdout_lines tr1 ++ stdout_lines tr2.
Proof.
  induction tr1 as [|e tr1 IH]; simpl; [reflexivity|].
  destruct e; rewrite ?IH; reflexivity.
Qed.

(** Two traces that end in three events each agree on those events. *)
Lemma last_three (l1 l2 : list event) (a1 b1 c1 a2 b2 c2 : event) :
  l1 ++ [a1; b1; c1] = l2 ++ [a2; b2; c2] ->
  a1 = a2 /\ b1 = b2 /\ c1 = c2.
Proof.
  intros H.
  change (l1 ++ [a1; b1; c1]) with (l1 ++ [a1] ++ [b1] ++ [c1]) in H.
  change (l2 ++ [a2; b2; c2]) with (l2 ++ [a2] ++ [b2] ++ [c2]) in H.
  rewrite !app_assoc in H.
  apply app_inj_tail in H as [H ->].
  apply app_inj_tail in H as [H ->].
  apply app_inj_tail in H as [_ ->].
  repeat split.
Qed.

Lemma different_length_different_string (a b : std_string) :
  size a <> size b -> string_eqb a b = false.
Proof.
  intros H. apply string_eqb_false. intros ->. contradiction.
Qed.

(** ** The server's session: [handle_client] of server2.cpp *)

(** X1: a session that returns has sent exactly two messages on the
    connection, a 16-byte challenge and then one of the two verdicts, has
    closed the connection once and has written nothing to standard error. *)
Theorem server_session_sends_challenge_then_verdict
        (sock : Z) (w w' : World) :
  Server2.handle_client sock w = (Ok tt, w') ->
  exists c v,
    List.length c = 16%nat /\
    (v = Server2.success \/ v = Server2.failure) /\
    sends sock (trace w') = sends sock (trace w) ++ [c; v] /\
    closes sock (trace w') = S (closes sock (trace w)) /\
    stderr_lines (trace w') = stderr_lines (trace w).
Proof.
  intros Hrun.
  destruct (handle_client_trace sock w)
    as (n1 & hello & [(_ & w0 & H0 & _)
                     |(E0 & n2 & digest & w0 & _ &
                       [(_ & H0 & _)|(p & v & _ & H0 & Hv & Htr)])]);
    rewrite H0 in Hrun; try discriminate.
  injection Hrun as <-.
  eexists. exists v. split; [|split; [|split; [|split]]].
  - apply (issued_challenge_length w).
  - rewrite Hv. destruct (string_eqb _ _); [left|right]; reflexivity.
  - rewrite Htr, sends_app. simpl. rewrite Z.eqb_refl. reflexivity.
  - rewrite Htr, closes_app. simpl. rewrite Z.eqb_refl. lia.
  - rewrite Htr, stderr_lines_app. simpl. apply app_nil_r.
Qed.

(** X1 on the session with the honest Prover. *)
Lemma server_session_sends_challenge_then_verdict_witness :
  exists c v,
    List.length c = 16%nat /\
    (v = Server2.success \/ v = Server2.failure) /\
    sends 4 (trace (snd (Server2.handle_client 4 honest_session))) =
      sends 4 (trace honest_session) ++ [c; v] /\
    closes 4 (trace (snd (Server2.handle_client 4 honest_session))) =
      S (closes 4 (trace honest_session)) /\
    stderr_lines (trace (snd (Server2.handle_client 4 honest_session))) =
      stderr_lines (trace honest_session).
Proof.
  assert (Hrun : Server2.handle_client 4 honest_session =
                 (Ok tt, snd (Server2.handle_client 4 honest_session)))
    by (apply run_ok; vm_compute; reflexivity).
  exact (server_session_sends_challenge_then_verdict
           4 honest_session (snd (Server2.handle_client 4 honest_session)) Hrun).
Defined.

(** X2: the verdict that follows a read whose count is not 20 (a closed
    or failed connection, a tag cut short by the transport, a longer
    message) is the failure verdict. *)
Theorem reply_of_other_length_is_rejected
        (sock : Z) (w w' : World) (pre : list event) (n2 : Z) (v : std_string) :
  Server2.handle_client sock w = (Ok tt, w') ->
  trace w' = pre ++ [EvRead sock n2; EvSend sock v; EvClose sock] ->
  n2 <> 20 ->
  v = Server2.failure.
Proof.
  intros Hrun Hshape Hn.
  destruct (handle_client_trace sock w)
    as (n1 & hello & [(_ & w0 & H0 & _)
                     |(E0 & n & digest & w0 & Hsz &
                       [(_ & H0 & _)|(p & v0 & _ & H0 & Hv & Htr)])]);
    rewrite H0 in Hrun; try discriminate.
  injection Hrun as <-.
  rewrite Hshape in Htr.
  assert (Hsplit : forall (l : list event) x y z u,
             l ++ [x; y; z; u] = (l ++ [x]) ++ [y; z; u])
    by (intros; rewrite <- app_assoc; reflexivity).
  rewrite app_assoc, Hsplit in Htr.
  apply last_three in Htr as (Hread & Hsend & _).
  injection Hread as ->. injection Hsend as ->.
  rewrite Hv, different_length_different_string; [reflexivity|].
  rewrite Hsz. unfold size at 1. rewrite string_at_length. lia.
Qed.

(** X2 on a peer that closes the connection after the challenge. *)
Lemma reply_of_other_length_is_rejected_witness :
  trace (snd (Server2.handle_client 4 (machine [Data (lit "hello"); Eof] 1))) =
    [EvRead 4 5; EvStdout (lit "Client: " ++ lit "hello" ++ endl); EvRand 16;
     EvSend 4 sample_challenge] ++
    [EvRead 4 0; EvSend 4 Server2.failure; EvClose 4] /\
  Server2.failure = Server2.failure.
Proof.
  assert (Htr : trace (snd (Server2.handle_client 4
                              (machine [Data (lit "hello"); Eof] 1))) =
                [EvRead 4 5; EvStdout (lit "Client: " ++ lit "hello" ++ endl);
                 EvRand 16; EvSend 4 sample_challenge] ++
                [EvRead 4 0; EvSend 4 Server2.failure; EvClose 4])
    by (vm_compute; reflexivity).
  assert (Hrun : Server2.handle_client 4 (machine [Data (lit "hello"); Eof] 1) =
                 (Ok tt, snd (Server2.handle_client 4
                                (machine [Data (lit "hello"); Eof] 1))))
    by (apply run_ok; vm_compute; reflexivity).
  split; [exact Htr|].
  refine (reply_of_other_length_is_rejected
            4 (machine [Data (lit "hello"); Eof] 1)
            (snd (Server2.handle_client 4 (machine [Data (lit "hello"); Eof] 1)))
            [EvRead 4 5; EvStdout (lit "Client: " ++ lit "hello" ++ endl);
             EvRand 16; EvSend 4 sample_challenge]
            0 Server2.failure Hrun Htr _).
  lia.
Defined.

(** X3: when [RAND_bytes] answers 0 the session ends with the exception
    before anything has been sent: the peer gets neither a challenge nor a
    verdict, and the connection is not closed. *)
Theorem entropy_failure_sends_nothing (sock : Z) (w : World) :
  rand_status w = 0 ->
  exists w',
    Server2.handle_client sock w =
      (Throw "Failed to generate random challenge", w') /\
    sends sock (trace w') = sends sock (trace w) /\
    closes sock (trace w') = closes sock (trace w).
Proof.
  intros E0.
  destruct (handle_client_trace sock w)
    as (n1 & hello & [(_ & w0 & H0 & Htr)|(E1 & _)]); [|contradiction].
  exists w0. split; [exact H0|].
  rewrite Htr, sends_app, closes_app. simpl.
  split; [apply app_nil_r|lia].
Qed.

(** X3 on a machine without entropy. *)
Lemma entropy_failure_sends_nothing_witness :
  exists w',
    Server2.handle_client 4 (machine [Data (lit "hello")] 0) =
      (Throw "Failed to generate random challenge", w') /\
    sends 4 (trace w') = sends 4 (trace (machine [Data (lit "hello")] 0)) /\
    closes 4 (trace w') = closes 4 (trace (machine [Data (lit "hello")] 0)).
Proof.
  apply (entropy_failure_sends_nothing 4 (machine [Data (lit "hello")] 0)).
  reflexivity.
Defined.



(** ** The server program: [create_server_socket] and [main] of server2.cpp *)

Lemma create_server_socket_cases (w : World) :
  Server2.create_server_socket w =
  (if sys_socket w <? 0 then Throw "Socket creation failed"
   else if sys_bind w <? 0 then Throw "Bind failed"
   else if sys_listen w <? 0 then Throw "Listen failed"
   else Ok (sys_socket w), w).
Proof.
  unfold Server2.create_server_socket, bind, ask, throw, ret.
  destruct (sys_socket w <? 0); [reflexivity|].
  destruct (sys_bind w <? 0); [reflexivity|].
  destruct (sys_listen w <? 0); reflexivity.
Qed.

(** What becomes of a run of [main] on a fresh process, for every
    behaviour of the connection. *)
Lemma server_main_account (w : World) (reset : nat -> bool) :
  trace w = [] ->
  sys_accept w <> sys_socket w ->
  let tr := trace (snd (Server2.main w)) in
  fst (Server2.main w) = Ok 0 /\
  closes (sys_socket w) (observed reset tr) =
    closes (sys_accept w) (observed reset tr) /\
  (closes (sys_accept w) (observed reset tr) +
   List.length (stderr_lines (observed reset tr)) +
   (if killed reset tr then 1 else 0) = 1)%nat.
Proof.
  intros Hfresh Hfd. cbv zeta.
  unfold Server2.main, bind, try_catch.
  rewrite (create_server_socket_cases w).
  destruct (sys_socket w <? 0);
    [simpl; rewrite Hfresh; repeat split|].
  destruct (sys_bind w <? 0);
    [simpl; rewrite Hfresh; repeat split|].
  destruct (sys_listen w <? 0);
    [simpl; rewrite Hfresh; repeat split|].
  unfold cout, emit, ask. cbn [sys_accept log].
  destruct (sys_accept w <? 0);
    [simpl; rewrite Hfresh; repeat split|].
  unfold ret.
  assert (Hs : (sys_socket w =? sys_accept w) = false) by (apply Z.eqb_neq; congruence).
  assert (Ha : (sys_accept w =? sys_socket w) = false) by (apply Z.eqb_neq; congruence).
  match goal with
  | |- context [Server2.handle_client ?s ?W] =>
      destruct (handle_client_trace s W)
        as (n1 & hello & [(_ & w0 & H0 & Htr)
                         |(_ & n2 & digest & w0 & _ &
                           [(_ & H0 & Htr)|(p & v & _ & H0 & _ & Htr)])]);
      rewrite H0
  end; cbn [trace log] in Htr; rewrite Hfresh in Htr;
    unfold sys_close, cerr, emit; cbn [fst snd trace log];
    rewrite Htr; unfold observed, killed;
    cbn [app observed_from killed_from];
    repeat (try match goal with
                | |- context [reset ?k] => destruct (reset k)
                end;
            cbn [app observed_from killed_from closes stderr_lines
                 List.length Nat.add]);
    rewrite ?Z.eqb_refl, ?Hs, ?Ha; repeat split.
Qed.

(** X5: whenever [main] of server2.cpp returns, it returns 0, also after
    an exception.  A fresh process ends in exactly one of three ways: the
    session ran to a verdict and the connection and the listening socket
    were each closed once; or an exception was caught and one line went to
    standard error; or SIGPIPE ended the process at a [send] on a reset
    connection.  In the last two cases neither descriptor was closed. *)
Theorem server_main_ends_in_one_of_three_ways
        (w : World) (reset : nat -> bool) (z : Z) (w' : World) :
  trace w = [] ->
  sys_accept w <> sys_socket w ->
  Server2.main w = (Ok z, w') ->
  z = 0 /\
  closes (sys_socket w) (observed reset (trace w')) =
    closes (sys_accept w) (observed reset (trace w')) /\
  (closes (sys_accept w) (observed reset (trace w')) +
   List.length (stderr_lines (observed reset (trace w'))) +
   (if killed reset (trace w') then 1 else 0) = 1)%nat.
Proof.
  intros Hfresh Hfd Hrun.
  destruct (server_main_account w reset Hfresh Hfd) as (Hz & Hc & Hsum).
  rewrite Hrun in Hz, Hc, Hsum. cbn [fst snd] in Hz, Hc, Hsum.
  injection Hz as ->. repeat split; assumption.
Qed.

(** X5 on the session with the honest Prover, when the connection is not
    reset, and on a peer that has closed, when it is. *)
Lemma server_main_ends_in_one_of_three_ways_witness :
  (let w' := snd (Server2.main honest_session) in
   0 = 0 /\
   closes 3 (observed never_reset (trace w')) =
     closes 4 (observed never_reset (trace w')) /\
   (closes 4 (observed never_reset (trace w')) +
    List.length (stderr_lines (observed never_reset (trace w'))) +
    (if killed never_reset (trace w') then 1 else 0) = 1)%nat) /\
  (let w' := snd (Server2.main (machine [Eof; Eof] 1)) in
   0 = 0 /\
   closes 3 (observed reset_after_first_send (trace w')) =
     closes 4 (observed reset_after_first_send (trace w')) /\
   (closes 4 (observed reset_after_first_send (trace w')) +
    List.length (stderr_lines (observed reset_after_first_send (trace w'))) +
    (if killed reset_after_first_send (trace w') then 1 else 0) = 1)%nat).
Proof.
  cbv zeta. split.
  - refine (server_main_ends_in_one_of_three_ways
              honest_session never_reset 0 (snd (Server2.main honest_session))
              eq_refl _ _).
    + simpl. lia.
    + apply run_ok. vm_compute. reflexivity.
  - refine (server_main_ends_in_one_of_three_ways
              (machine [Eof; Eof] 1) reset_after_first_send 0
              (snd (Server2.main (machine [Eof; Eof] 1)))
              eq_refl _ _).
    + simpl. lia.
    + apply run_ok. vm_compute. reflexivity.
Defined.

(** The two runs of the witness end differently. *)
Example server_main_closed_or_killed :
  killed never_reset (trace (snd (Server2.main honest_session))) = false /\
  closes 4 (observed never_reset (trace (snd (Server2.main honest_session)))) = 1%nat /\
  killed reset_after_first_send
    (trace (snd (Server2.main (machine [Eof; Eof] 1)))) = true /\
  closes 4 (observed reset_after_first_send
              (trace (snd (Server2.main (machine [Eof; Eof] 1))))) = 0%nat.
Proof. vm_compute. repeat split. Qed.

(** ** The client: [client_interaction] and [main] of client2.cpp *)

(** Every run of [client_interaction], event by event. *)
Lemma client_interaction_trace (sock : Z) (w : World) :
  exists n1 challenge,
    let pre := [EvSend sock (lit "hello"); EvRead sock n1;
                EvStdout (lit "Received challenge: " ++ challenge ++ endl)] in
    let mac := HMAC_sha1 w Client2.SHARED_SECRET
                 (to_int (size Client2.SHARED_SECRET))
                 challenge (size challenge) in
    size challenge = Z.max 0 n1 /\
    fst (Server2.read_message sock (log (EvSend sock (lit "hello")) w)) =
      Ok challenge /\
    exists w',
      (mac = None /\
       Client2.client_interaction sock w = (Throw "HMAC computation failed", w') /\
       trace w' = trace w ++ pre) \/
      (exists p n2 response,
          mac = Some p /\
          Client2.client_interaction sock w = (Ok tt, w') /\
          trace w' = trace w ++ pre ++
                     [EvSend sock (string_at p 20); EvRead sock n2;
                      EvStdout (lit "Server: " ++ response ++ endl)]).
Proof.
  unfold Client2.client_interaction, bind.
  unfold Client2.send_message, sys_send, emit.
  rewrite client_read_message_same.
  destruct (read_message_world sock (log (EvSend sock (lit "hello")) w))
    as (challenge & n1 & ds1 & H1 & _ & Hsz).
  rewrite H1. unfold cout, emit.
  exists n1, challenge. cbv zeta.
  split; [exact Hsz|]. split; [reflexivity|].
  rewrite client_compute_hmac_same, compute_hmac_cases.
  cbn [HMAC_sha1 log set_inbound].
  match goal with
  | |- context [match ?X with Some _ => _ | None => _ end] =>
      destruct X as [p|] eqn:Emac
  end.
  - match goal with
    | |- context [Server2.read_message sock ?W] =>
        destruct (read_message_world sock W) as (response & n2 & ds2 & H2 & _ & _)
    end.
    eexists. right. exists p, n2, response.
    split; [reflexivity|]. rewrite H2.
    split; [reflexivity|].
    simpl. rewrite <- !app_assoc. reflexivity.
  - eexists. left. split; [reflexivity|]. split; [reflexivity|].
    simpl. rewrite <- !app_assoc. reflexivity.
Qed.

(** X6: the client greets before it reads anything.  A run of
    [client_interaction] that returns has then sent exactly one more
    message, a 20-byte tag; a run that is left by an exception has sent
    only the greeting, and the exception is the one of [compute_hmac].
    In neither case has the client closed the socket itself. *)
Theorem client_session_sends_hello_then_tag
        (sock : Z) (w : World) (r : outcome unit) (w' : World) :
  Client2.client_interaction sock w = (r, w') ->
  (r = Ok tt ->
   closes sock (trace w') = closes sock (trace w) /\
   (exists rest, trace w' = trace w ++ EvSend sock (lit "hello") :: rest) /\
   exists tag, List.length tag = 20%nat /\
               sends sock (trace w') = sends sock (trace w) ++ [lit "hello"; tag]) /\
  (forall what, r = Throw what ->
   what = "HMAC computation failed"%string /\
   closes sock (trace w') = closes sock (trace w) /\
   sends sock (trace w') = sends sock (trace w) ++ [lit "hello"]).
Proof.
  intros Hrun.
  destruct (client_interaction_trace sock w)
    as (n1 & challenge & _ & _ & w0 &
        [(_ & H0 & Htr)|(p & n2 & response & _ & H0 & Htr)]);
    rewrite H0 in Hrun; injection Hrun as <- <-;
    rewrite Htr, closes_app, sends_app; simpl; rewrite Z.eqb_refl.
  - split; [discriminate|].
    intros what [= <-]. split; [reflexivity|]. split; [lia|reflexivity].
  - split; [|discriminate].
    intros _. split; [lia|]. split; [eexists; reflexivity|].
    exists (string_at p 20). split; [apply string_at_length|reflexivity].
Qed.

(** X6 on a client that is sent the sample challenge and the verdict. *)
Lemma client_session_sends_hello_then_tag_witness :
  let w := machine [Data sample_challenge; Data Server2.success] 1 in
  let w' := snd (Client2.client_interaction 3 w) in
  (Ok tt = Ok tt ->
   closes 3 (trace w') = closes 3 (trace w) /\
   (exists rest, trace w' = trace w ++ EvSend 3 (lit "hello") :: rest) /\
   exists tag, List.length tag = 20%nat /\
               sends 3 (trace w') = sends 3 (trace w) ++ [lit "hello"; tag]) /\
  (forall what, Ok tt = Throw what ->
   what = "HMAC computation failed"%string /\
   closes 3 (trace w') = closes 3 (trace w) /\
   sends 3 (trace w') = sends 3 (trace w) ++ [lit "hello"]).
Proof.
  cbv zeta.
  refine (client_session_sends_hello_then_tag
            3 (machine [Data sample_challenge; Data Server2.success] 1) (Ok tt)
            (snd (Client2.client_interaction
                    3 (machine [Data sample_challenge; Data Server2.success] 1)))
            _).
  apply run_ok. vm_compute. reflexivity.
Defined.

Lemma create_client_socket_cases (w : World) :
  Client2.create_client_socket w =
  (if sys_socket w <? 0 then Throw "Socket creation failed"
   else if sys_pton w <=? 0 then Throw "Invalid or unsupported IP address"
   else if sys_connect w <? 0 then Throw "Connection failed"
   else Ok (sys_socket w), w).
Proof.
  unfold Client2.create_client_socket, bind, ask, throw, ret.
  destruct (sys_socket w <? 0); [reflexivity|].
  destruct (sys_pton w <=? 0); [reflexivity|].
  destruct (sys_connect w <? 0); reflexivity.
Qed.

(** What becomes of a run of the client's [main] on a fresh process, for
    every behaviour of the connection. *)
Lemma client_main_account (w : World) (reset : nat -> bool) :
  trace w = [] ->
  let tr := trace (snd (Client2.main w)) in
  fst (Client2.main w) = Ok 0 /\
  (closes (sys_socket w) (observed reset tr) +
   List.length (stderr_lines (observed reset tr)) +
   (if killed reset tr then 1 else 0) = 1)%nat.
Proof.
  intros Hfresh. cbv zeta.
  unfold Client2.main, bind, try_catch.
  rewrite (create_client_socket_cases w).
  destruct (sys_socket w <? 0);
    [simpl; rewrite Hfresh; repeat split|].
  destruct (sys_pton w <=? 0);
    [simpl; rewrite Hfresh; repeat split|].
  destruct (sys_connect w <? 0);
    [simpl; rewrite Hfresh; repeat split|].
  destruct (client_interaction_trace (sys_socket w) w)
    as (n1 & challenge & _ & _ & w0 &
        [(_ & H0 & Htr)|(p & n2 & response & _ & H0 & Htr)]);
    rewrite H0; rewrite Hfresh in Htr;
    unfold sys_close, cerr, emit, ret; cbn [fst snd trace log];
    rewrite Htr; unfold observed, killed;
    cbn [app observed_from killed_from];
    repeat (try match goal with
                | |- context [reset ?k] => destruct (reset k)
                end;
            cbn [app observed_from killed_from closes stderr_lines
                 List.length Nat.add]);
    rewrite ?Z.eqb_refl; repeat split.
Qed.

(** X7: whenever [main] of client2.cpp returns, it returns 0, whatever
    the verdict was and also after an exception.  A fresh process ends in
    exactly one of three ways: the exchange ran to its end and the socket
    was closed once; or an exception was caught and one line went to
    standard error; or SIGPIPE ended the process at a [send] on a reset
    connection.  In the last two cases the socket was not closed. *)
Theorem client_main_ends_in_one_of_three_ways
        (w : World) (reset : nat -> bool) (z : Z) (w' : World) :
  trace w = [] ->
  Client2.main w = (Ok z, w') ->
  z = 0 /\
  (closes (sys_socket w) (observed reset (trace w')) +
   List.length (stderr_lines (observed reset (trace w'))) +
   (if killed reset (trace w') then 1 else 0) = 1)%nat.
Proof.
  intros Hfresh Hrun.
  destruct (client_main_account w reset Hfresh) as (Hz & Hsum).
  rewrite Hrun in Hz, Hsum. cbn [fst snd] in Hz, Hsum.
  injection Hz as ->. split; [reflexivity|exact Hsum].
Qed.

(** X7 on a client that is sent the sample challenge and the failure
    verdict, and on a client whose server has gone and whose connection is
    reset by the time it sends the tag. *)
Lemma client_main_ends_in_one_of_three_ways_witness :
  (let w := machine [Data sample_challenge; Data Server2.failure] 1 in
   let w' := snd (Client2.main w) in
   0 = 0 /\
   (closes (sys_socket w) (observed never_reset (trace w')) +
    List.length (stderr_lines (observed never_reset (trace w'))) +
    (if killed never_reset (trace w') then 1 else 0) = 1)%nat) /\
  (let w := machine [Eof] 1 in
   let w' := snd (Client2.main w) in
   0 = 0 /\
   (closes (sys_socket w) (observed reset_after_first_send (trace w')) +
    List.length (stderr_lines (observed reset_after_first_send (trace w'))) +
    (if killed reset_after_first_send (trace w') then 1 else 0) = 1)%nat).
Proof.
  cbv zeta. split.
  - refine (client_main_ends_in_one_of_three_ways
              (machine [Data sample_challenge; Data Server2.failure] 1) never_reset 0
              (snd (Client2.main
                      (machine [Data sample_challenge; Data Server2.failure] 1)))
              eq_refl _).
    apply run_ok. vm_compute. reflexivity.
  - refine (client_main_ends_in_one_of_three_ways
              (machine [Eof] 1) reset_after_first_send 0
              (snd (Client2.main (machine [Eof] 1))) eq_refl _).
    apply run_ok. vm_compute. reflexivity.
Defined.

(** The client whose server has gone is ended by SIGPIPE at the [send] of
    the tag: the greeting is all it has sent, and it has not closed. *)
Example client_killed_at_tag :
  let tr := trace (snd (Client2.main (machine [Eof] 1))) in
  killed reset_after_first_send tr = true /\
  sends 3 (observed reset_after_first_send tr) = [lit "hello"] /\
  closes 3 (observed reset_after_first_send tr) = 0%nat.
Proof. vm_compute. repeat split. Qed.

(** ** Client and server together *)

(** The server's session when the greeting and the reply each arrive as
    one segment that fits the buffer. *)
Lemma handle_client_whole
      (sock : Z) (w : World) (m1 m2 : std_string) (rest : list delivery)
      (q : nat -> byte) :
  inbound w = Data m1 :: Data m2 :: rest ->
  (List.length m1 <= 1024)%nat ->
  (List.length m2 <= 1024)%nat ->
  rand_status w <> 0 ->
  HMAC_sha1 w Server2.SHARED_SECRET (to_int (size Server2.SHARED_SECRET))
    (if rand_status w =? 1 then map (entropy w) (seq (drawn w) 16) else zeroed 16)
    (size (if rand_status w =? 1
           then map (entropy w) (seq (drawn w) 16) else zeroed 16)) = Some q ->
  exists w',
    Server2.handle_client sock w = (Ok tt, w') /\
    trace w' =
    trace w ++
    [EvRead sock (size m1); EvStdout (lit "Client: " ++ m1 ++ endl); EvRand 16;
     EvSend sock (if rand_status w =? 1
                  then map (entropy w) (seq (drawn w) 16) else zeroed 16);
     EvRead sock (size m2);
     EvSend sock (if string_eqb m2 (string_at q 20)
                  then Server2.success else Server2.failure);
     EvClose sock].
Proof.
  intros Hin H1 H2 E0 Hmac.
  unfold Server2.handle_client, bind.
  rewrite (read_message_whole sock w m1 (Data m2 :: rest) Hin H1).
  unfold cout, emit.
  rewrite generate_challenge_16 by exact E0.
  unfold Server2.send_message, sys_send, emit.
  cbn [rand_status entropy drawn log set_inbound].
  match goal with
  | |- context [Server2.read_message sock ?W] =>
      rewrite (read_message_whole sock W m2 rest eq_refl H2)
  end.
  rewrite compute_hmac_cases.
  cbn [HMAC_sha1 log set_inbound set_drawn].
  match goal with
  | |- context [match ?X with Some _ => _ | None => _ end] =>
      replace X with (Some q) by (symmetry; exact Hmac)
  end.
  eexists. split; [reflexivity|].
  unfold sys_close, emit. cbn [snd trace log set_inbound set_drawn].
  rewrite <- !app_assoc. reflexivity.
Qed.

(** The client's exchange when the challenge and the verdict each arrive
    as one segment that fits the buffer. *)
Lemma client_interaction_whole
      (sock : Z) (w : World) (c v : std_string) (rest : list delivery)
      (p : nat -> byte) :
  inbound w = Data c :: Data v :: rest ->
  (List.length c <= 1024)%nat ->
  (List.length v <= 1024)%nat ->
  HMAC_sha1 w Client2.SHARED_SECRET (to_int (size Client2.SHARED_SECRET))
    c (size c) = Some p ->
  exists w',
    Client2.client_interaction sock w = (Ok tt, w') /\
    trace w' =
    trace w ++
    [EvSend sock (lit "hello"); EvRead sock (size c);
     EvStdout (lit "Received challenge: " ++ c ++ endl);
     EvSend sock (string_at p 20); EvRead sock (size v);
     EvStdout (lit "Server: " ++ v ++ endl)].
Proof.
  intros Hin H1 H2 Hmac.
  unfold Client2.client_interaction, bind.
  unfold Client2.send_message, sys_send, emit.
  rewrite client_read_message_same.
  rewrite (read_message_whole sock (log (EvSend sock (lit "hello")) w)
             c (Data v :: rest) Hin H1).
  unfold cout, emit.
  rewrite client_compute_hmac_same, compute_hmac_cases.
  cbn [HMAC_sha1 log set_inbound].
  rewrite Hmac.
  match goal with
  | |- context [Server2.read_message sock ?W] =>
      rewrite (read_message_whole sock W v rest eq_refl H2)
  end.
  eexists. split; [reflexivity|].
  cbn [snd trace log set_inbound].
  rewrite <- !app_assoc. reflexivity.
Qed.

Lemma verdict_fits_buffer (b : bool) :
  (List.length (if b then Server2.success else Server2.failure) <= 1024)%nat.
Proof. apply Nat.leb_le. destruct b; vm_compute; reflexivity. Qed.

(** X8: client2 and server2 connected by a transport that keeps message
    boundaries, each receiving exactly what the other sends.  If the two
    use the same libcrypto, [HMAC] does not fail and [RAND_bytes] does not
    answer 0, then both run to the end, the server sends a 16-byte
    challenge followed by the success verdict, and the client prints that
    challenge and that verdict. *)
Theorem honest_client_is_authenticated (sfd cfd : Z) (ws wc : World) :
  trace ws = [] ->
  trace wc = [] ->
  rand_status ws <> 0 ->
  HMAC_sha1 ws = HMAC_sha1 wc ->
  (forall d, HMAC_sha1 wc Client2.SHARED_SECRET
               (to_int (size Client2.SHARED_SECRET)) d (size d) <> None) ->
  inbound ws = whole (sends cfd (trace (snd (Client2.client_interaction cfd wc)))) ->
  inbound wc = whole (sends sfd (trace (snd (Server2.handle_client sfd ws)))) ->
  exists c,
    List.length c = 16%nat /\
    fst (Server2.handle_client sfd ws) = Ok tt /\
    fst (Client2.client_interaction cfd wc) = Ok tt /\
    sends sfd (trace (snd (Server2.handle_client sfd ws))) = [c; Server2.success] /\
    stdout_lines (trace (snd (Client2.client_interaction cfd wc))) =
      [lit "Received challenge: " ++ c ++ endl;
       lit "Server: " ++ Server2.success ++ endl].
Proof.
  intros Hs Hc E0 Hsame Hmac Hin_s Hin_c.
  (* what the client sends does not depend on what it receives *)
  destruct (client_interaction_trace cfd wc)
    as (n1 & challenge & _ & _ & wc1 &
        [(Hnone & _)|(p & n2 & response & _ & Hrun1 & Htr1)]);
    [exfalso; exact (Hmac _ Hnone)|].
  rewrite Hrun1 in Hin_s. cbn [snd] in Hin_s.
  rewrite Htr1, Hc in Hin_s. cbn [app] in Hin_s.
  cbn [sends] in Hin_s. rewrite Z.eqb_refl in Hin_s. cbn [whole map] in Hin_s.
  (* the server reads the greeting and the tag and answers *)
  set (c := if rand_status ws =? 1
            then map (entropy ws) (seq (drawn ws) 16) else zeroed 16).
  destruct (HMAC_sha1 ws Server2.SHARED_SECRET
              (to_int (size Server2.SHARED_SECRET)) c (size c)) as [q|] eqn:Hq;
    [|exfalso; rewrite Hsame in Hq; exact (Hmac _ Hq)].
  destruct (handle_client_whole sfd ws (lit "hello") (string_at p 20) [] q Hin_s)
    as (ws' & Hrun_s & Htr_s);
    [simpl; lia | rewrite string_at_length; lia | exact E0 | exact Hq |].
  rewrite Hrun_s in Hin_c. cbn [snd] in Hin_c.
  rewrite Htr_s, Hs in Hin_c. cbn [app] in Hin_c.
  cbn [sends] in Hin_c. rewrite Z.eqb_refl in Hin_c. cbn [whole map] in Hin_c.
  fold c in Hin_c, Htr_s.
  (* so the client gets the challenge and the verdict whole *)
  rewrite Hsame in Hq.
  destruct (client_interaction_whole cfd wc c _ [] q Hin_c)
    as (wc' & Hrun_c & Htr_c);
    [unfold c; rewrite (issued_challenge_length ws); lia
    |apply verdict_fits_buffer | exact Hq |].
  (* and the tag it sent is the one the server expects *)
  assert (Htag : string_at p 20 = string_at q 20).
  { rewrite Hrun_c in Hrun1. injection Hrun1 as <-.
    rewrite Htr_c, Hc in Htr1.
    apply (f_equal (fun tr => nth 1 (sends cfd tr) [])) in Htr1.
    cbn [app sends] in Htr1. rewrite !Z.eqb_refl in Htr1.
    cbn [nth] in Htr1. symmetry. exact Htr1. }
  rewrite Htag, string_eqb_refl in Htr_s, Htr_c.
  exists c. split; [apply (issued_challenge_length ws)|].
  rewrite Hrun_s, Hrun_c. cbn [fst snd].
  split; [reflexivity|]. split; [reflexivity|].
  rewrite Htr_s, Htr_c, Hs, Hc. cbn [app sends stdout_lines].
  rewrite !Z.eqb_refl. split; reflexivity.
Qed.

(** X8 on the two sample machines: each side's input is what the other
    side sends. *)
Lemma honest_client_is_authenticated_witness :
  let ws := honest_session in
  let wc := machine [Data sample_challenge; Data Server2.success] 1 in
  exists c,
    List.length c = 16%nat /\
    fst (Server2.handle_client 4 ws) = Ok tt /\
    fst (Client2.client_interaction 3 wc) = Ok tt /\
    sends 4 (trace (snd (Server2.handle_client 4 ws))) = [c; Server2.success] /\
    stdout_lines (trace (snd (Client2.client_interaction 3 wc))) =
      [lit "Received challenge: " ++ c ++ endl;
       lit "Server: " ++ Server2.success ++ endl].
Proof.
  cbv zeta.
  refine (honest_client_is_authenticated
            4 3 honest_session
            (machine [Data sample_challenge; Data Server2.success] 1)
            eq_refl eq_refl _ eq_refl _ _ _).
  - simpl. lia.
  - intros d. change (HMAC_sha1 _) with Libcrypto.HMAC_sha1.
    unfold Libcrypto.HMAC_sha1.
    change (to_int (size Client2.SHARED_SECRET) <? 0) with false.
    cbv iota. discriminate.
  - vm_compute. reflexivity.
  - vm_compute. reflexivity.
Defined.

(** X9: a client whose first read returns no data (the server has closed
    the connection, or the read failed) does not notice: the second
    message it hands to [send] is the tag over the empty challenge.  If it
    returns, that is what it has sent after the greeting; on a connection
    that has been reset by then, SIGPIPE ends it at that [send] and the
    greeting is all that has gone out. *)
Theorem client_answers_empty_challenge
        (sock : Z) (w : World) (n : Z) (buffer' : list byte) (w1 : World)
        (p : nat -> byte) (w' : World) (reset : nat -> bool) :
  trace w = [] ->
  sys_read sock (zeroed 1024) 1024 (log (EvSend sock (lit "hello")) w) =
    (Ok (n, buffer'), w1) ->
  n <= 0 ->
  HMAC_sha1 w Client2.SHARED_SECRET (to_int (size Client2.SHARED_SECRET)) [] 0 =
    Some p ->
  Client2.client_interaction sock w = (Ok tt, w') ->
  reset 0%nat = false ->
  sends sock (trace w') = [lit "hello"; string_at p 20] /\
  killed reset (trace w') = reset 1%nat /\
  sends sock (observed reset (trace w')) =
    (if reset 1%nat then [lit "hello"] else [lit "hello"; string_at p 20]).
Proof.
  intros Hfresh Hread Hn Hmac Hrun Hfirst.
  destruct (client_interaction_trace sock w)
    as (n1 & challenge & _ & Hchal & w0 &
        [(Hnone & H0 & _)|(p' & n2 & response & Hsome & H0 & Htr)]);
    rewrite (read_message_no_data _ _ _ _ _ Hread Hn) in Hchal;
    injection Hchal as <-; rewrite H0 in Hrun; [discriminate|].
  injection Hrun as <-.
  change (size []) with 0 in Hsome. rewrite Hmac in Hsome.
  injection Hsome as <-.
  rewrite Htr, Hfresh. unfold observed, killed.
  cbn [app observed_from killed_from sends]. rewrite Hfirst.
  cbn [observed_from killed_from sends]. rewrite !Z.eqb_refl.
  destruct (reset 1%nat); cbn [observed_from killed_from sends];
    rewrite ?Z.eqb_refl; repeat split.
Qed.

(** X9 on a connection that the server has closed and that is reset by
    the time of the second [send]. *)
Lemma client_answers_empty_challenge_witness :
  let w' := snd (Client2.client_interaction 3 (machine [Eof] 1)) in
  sends 3 (trace w') = [lit "hello"; tag_of Client2.SHARED_SECRET []] /\
  killed reset_after_first_send (trace w') = true /\
  sends 3 (observed reset_after_first_send (trace w')) = [lit "hello"].
Proof.
  cbv zeta. unfold tag_of.
  destruct (Libcrypto.HMAC_sha1 Client2.SHARED_SECRET
              (size Client2.SHARED_SECRET) [] (size [])) as [p|] eqn:E.
  - refine (client_answers_empty_challenge
              3 (machine [Eof] 1) 0 (zeroed 1024) _ p
              (snd (Client2.client_interaction 3 (machine [Eof] 1)))
              reset_after_first_send eq_refl eq_refl _ E _ eq_refl).
    + lia.
    + apply run_ok. vm_compute. reflexivity.
  - exfalso. revert E. unfold Libcrypto.HMAC_sha1.
    change (size Client2.SHARED_SECRET <? 0) with false.
    cbv iota. discriminate.
Defined.

(** ** The plaintext variant: server.cpp *)

(** Every run of the plaintext [handle_client], event by event: it always
    returns. *)
Lemma plaintext_handle_client_trace (sock : Z) (w : World) :
  exists n1 hello n2 username n3 password w',
    size username = Z.max 0 n2 /\
    size password = Z.max 0 n3 /\
    Server1.handle_client sock w = (Ok tt, w') /\
    trace w' =
    trace w ++
    [EvSend sock Server1.greeting; EvRead sock n1;
     EvStdout (lit "Client says: " ++ hello ++ endl);
     EvSend sock Server1.ask_username; EvRead sock n2;
     EvSend sock Server1.ask_password; EvRead sock n3;
     EvSend sock (if string_eqb username (lit "admin") &&
                     string_eqb password (lit "pass123")
                  then Server1.success else Server1.failure);
     EvClose sock].
Proof.
  unfold Server1.handle_client, bind.
  unfold Server1.send_message, sys_send, emit.
  rewrite server1_read_message_same.
  destruct (read_message_world sock (log (EvSend sock Server1.greeting) w))
    as (hello & n1 & ds1 & H1 & _ & _).
  rewrite H1. unfold cout, emit.
  match goal with
  | |- context [Server2.read_message sock ?W] =>
      destruct (read_message_world sock W) as (username & n2 & ds2 & H2 & _ & Hu);
      rewrite H2
  end.
  match goal with
  | |- context [Server2.read_message sock ?W] =>
      destruct (read_message_world sock W) as (password & n3 & ds3 & H3 & _ & Hp);
      rewrite H3
  end.
  exists n1, hello, n2, username, n3, password.
  destruct (string_eqb username (lit "admin") && string_eqb password (lit "pass123"));
    eexists; (split; [exact Hu|]); (split; [exact Hp|]);
    (split; [reflexivity|]);
    unfold sys_close, emit; cbn [snd trace log set_inbound];
    rewrite <- !app_assoc; reflexivity.
Qed.

(** X10: the plaintext server's [handle_client] is never left by an
    exception.  A session that returns has sent the greeting, the two
    prompts and one of the two verdicts, in this order, and has closed the
    connection once; on a fresh process the session either does that or is
    ended by SIGPIPE at a [send] on a reset connection, in which case the
    connection has not been closed and what has gone out is a beginning of
    those four messages. *)
Theorem plaintext_session_closes_unless_killed
        (sock : Z) (w : World) (r : outcome unit) (w' : World)
        (reset : nat -> bool) :
  Server1.handle_client sock w = (r, w') ->
  (forall what, r <> Throw what) /\
  (r = Ok tt ->
   exists v,
     (v = Server1.success \/ v = Server1.failure) /\
     sends sock (trace w') =
       sends sock (trace w) ++
       [Server1.greeting; Server1.ask_username; Server1.ask_password; v] /\
     closes sock (trace w') = S (closes sock (trace w)) /\
     stderr_lines (trace w') = stderr_lines (trace w) /\
     (trace w = [] ->
      (closes sock (observed reset (trace w')) +
       (if killed reset (trace w') then 1 else 0) = 1)%nat /\
      exists rest,
        [Server1.greeting; Server1.ask_username; Server1.ask_password; v] =
        sends sock (observed reset (trace w')) ++ rest)).
Proof.
  intros Hrun.
  destruct (plaintext_handle_client_trace sock w)
    as (n1 & hello & n2 & username & n3 & password & w0 & _ & _ & H0 & Htr).
  rewrite H0 in Hrun. injection Hrun as <- <-.
  split; [discriminate|]. intros _.
  exists (if string_eqb username (lit "admin") && string_eqb password (lit "pass123")
          then Server1.success else Server1.failure).
  split; [|split; [|split; [|split]]].
  - destruct (string_eqb username (lit "admin") && string_eqb password (lit "pass123"));
      [left|right]; reflexivity.
  - rewrite Htr, sends_app. cbn [sends]. rewrite !Z.eqb_refl. reflexivity.
  - rewrite Htr, closes_app. cbn [closes]. rewrite Z.eqb_refl. lia.
  - rewrite Htr, stderr_lines_app. cbn [stderr_lines]. apply app_nil_r.
  - intros Hfresh. rewrite Htr, Hfresh. unfold observed, killed.
    cbn [app observed_from killed_from].
    repeat (try match goal with
                | |- context [reset ?k] => destruct (reset k)
                end;
            cbn [app observed_from killed_from closes sends Nat.add]);
      rewrite ?Z.eqb_refl; (split; [reflexivity|]); eexists; reflexivity.
Qed.

(** X10 on a peer that has closed: the connection is reset by the time
    of the second [send]. *)
Lemma plaintext_session_closes_unless_killed_witness :
  let w := machine [Eof] 1 in
  let w' := snd (Server1.handle_client 4 w) in
  (forall what, Ok tt <> Throw what) /\
  (Ok tt = Ok tt ->
   exists v,
     (v = Server1.success \/ v = Server1.failure) /\
     sends 4 (trace w') =
       sends 4 (trace w) ++
       [Server1.greeting; Server1.ask_username; Server1.ask_password; v] /\
     closes 4 (trace w') = S (closes 4 (trace w)) /\
     stderr_lines (trace w') = stderr_lines (trace w) /\
     (trace w = [] ->
      (closes 4 (observed reset_after_first_send (trace w')) +
       (if killed reset_after_first_send (trace w') then 1 else 0) = 1)%nat /\
      exists rest,
        [Server1.greeting; Server1.ask_username; Server1.ask_password; v] =
        sends 4 (observed reset_after_first_send (trace w')) ++ rest)).
Proof.
  cbv zeta.
  refine (plaintext_session_closes_unless_killed
            4 (machine [Eof] 1) (Ok tt)
            (snd (Server1.handle_client 4 (machine [Eof] 1)))
            reset_after_first_send _).
  apply run_ok. vm_compute. reflexivity.
Defined.

(** On that run the process is ended at the [send] of the first prompt. *)
Example plaintext_session_killed_at_prompt :
  let tr := trace (snd (Server1.handle_client 4 (machine [Eof] 1))) in
  killed reset_after_first_send tr = true /\
  sends 4 (observed reset_after_first_send tr) = [Server1.greeting] /\
  closes 4 (observed reset_after_first_send tr) = 0%nat.
Proof. vm_compute. repeat split. Qed.

(** The plaintext session when greeting, username and password each
    arrive as one segment that fits the buffer. *)
Lemma plaintext_handle_client_whole
      (sock : Z) (w : World) (h u p : std_string) (rest : list delivery) :
  inbound w = Data h :: Data u :: Data p :: rest ->
  (List.length h <= 1024)%nat ->
  (List.length u <= 1024)%nat ->
  (List.length p <= 1024)%nat ->
  exists w',
    Server1.handle_client sock w = (Ok tt, w') /\
    inbound w' = rest /\
    trace w' =
    trace w ++
    [EvSend sock Server1.greeting; EvRead sock (size h);
     EvStdout (lit "Client says: " ++ h ++ endl);
     EvSend sock Server1.ask_username; EvRead sock (size u);
     EvSend sock Server1.ask_password; EvRead sock (size p);
     EvSend sock (if string_eqb u (lit "admin") && string_eqb p (lit "pass123")
                  then Server1.success else Server1.failure);
     EvClose sock].
Proof.
  intros Hin Hh Hu Hp.
  unfold Server1.handle_client, bind.
  unfold Server1.send_message, sys_send, emit.
  rewrite server1_read_message_same.
  rewrite (read_message_whole sock (log (EvSend sock Server1.greeting) w)
             h (Data u :: Data p :: rest) Hin Hh).
  unfold cout, emit.
  match goal with
  | |- context [Server2.read_message sock ?W] =>
      rewrite (read_message_whole sock W u (Data p :: rest) eq_refl Hu)
  end.
  match goal with
  | |- context [Server2.read_message sock ?W] =>
      rewrite (read_message_whole sock W p rest eq_refl Hp)
  end.
  destruct (string_eqb u (lit "admin") && string_eqb p (lit "pass123"));
    eexists; (split; [reflexivity|]); (split; [reflexivity|]);
    unfold sys_close, emit; cbn [snd trace log set_inbound];
    rewrite <- !app_assoc; reflexivity.
Qed.

Lemma plaintext_verdicts_differ : Server1.success <> Server1.failure.
Proof. apply string_eqb_neq. vm_compute. reflexivity. Qed.

(** X11: when greeting, username and password arrive as one segment
    each, the plaintext server answers with the success verdict exactly
    when the username is "admin" and the password is "pass123", byte for
    byte; the greeting is not examined. *)
Theorem plaintext_verdict_iff_credentials
        (sock : Z) (w : World) (h u p : std_string) (rest : list delivery) :
  inbound w = Data h :: Data u :: Data p :: rest ->
  (List.length h <= 1024)%nat ->
  (List.length u <= 1024)%nat ->
  (List.length p <= 1024)%nat ->
  exists w' v,
    Server1.handle_client sock w = (Ok tt, w') /\
    sends sock (trace w') =
      sends sock (trace w) ++
      [Server1.greeting; Server1.ask_username; Server1.ask_password; v] /\
    (v = Server1.success <-> u = lit "admin" /\ p = lit "pass123") /\
    (v = Server1.failure <-> ~ (u = lit "admin" /\ p = lit "pass123")).
Proof.
  intros Hin Hh Hu Hp.
  destruct (plaintext_handle_client_whole sock w h u p rest Hin Hh Hu Hp)
    as (w' & Hrun & _ & Htr).
  exists w'.
  exists (if string_eqb u (lit "admin") && string_eqb p (lit "pass123")
          then Server1.success else Server1.failure).
  split; [exact Hrun|]. split.
  - rewrite Htr, sends_app. cbn [sends]. rewrite !Z.eqb_refl. reflexivity.
  - pose proof plaintext_verdicts_differ as Hdiff.
    destruct (string_eqb u (lit "admin")) eqn:Eu;
      destruct (string_eqb p (lit "pass123")) eqn:Ep; cbn [andb].
    + apply string_eqb_true in Eu, Ep. subst u p.
      split; split; tauto.
    + apply string_eqb_neq in Ep.
      split; split; try tauto; intros H; symmetry in H; contradiction.
    + apply string_eqb_neq in Eu.
      split; split; try tauto; intros H; symmetry in H; contradiction.
    + apply string_eqb_neq in Eu.
      split; split; try tauto; intros H; symmetry in H; contradiction.
Qed.

(** X11 on the right credentials. *)
Lemma plaintext_verdict_iff_credentials_witness :
  exists w' v,
    Server1.handle_client 4
      (machine [Data (lit "hello"); Data (lit "admin"); Data (lit "pass123")] 1) =
      (Ok tt, w') /\
    sends 4 (trace w') =
      sends 4 (trace (machine [Data (lit "hello"); Data (lit "admin");
                               Data (lit "pass123")] 1)) ++
      [Server1.greeting; Server1.ask_username; Server1.ask_password; v] /\
    (v = Server1.success <-> lit "admin" = lit "admin" /\ lit "pass123" = lit "pass123") /\
    (v = Server1.failure <->
     ~ (lit "admin" = lit "admin" /\ lit "pass123" = lit "pass123")).
Proof.
  apply (plaintext_verdict_iff_credentials
           4 (machine [Data (lit "hello"); Data (lit "admin"); Data (lit "pass123")] 1)
           (lit "hello") (lit "admin") (lit "pass123") []).
  - reflexivity.
  - simpl. lia.
  - simpl. lia.
  - simpl. lia.
Defined.

(** A username and password that the transport hands over in one piece
    are not accepted, and neither is a password followed by a newline. *)
Example plaintext_framing_sensitivity :
  sends 4 (trace (snd (Server1.handle_client 4
     (machine [Data (lit "hello"); Data (lit "adminpass123")] 1)))) =
    [Server1.greeting; Server1.ask_username; Server1.ask_password; Server1.failure] /\
  sends 4 (trace (snd (Server1.handle_client 4
     (machine [Data (lit "hello"); Data (lit "admin");
               Data (lit "pass123" ++ endl)] 1)))) =
    [Server1.greeting; Server1.ask_username; Server1.ask_password; Server1.failure].
Proof. vm_compute. split; reflexivity. Qed.

Lemma plaintext_create_server_socket_same :
  Server1.create_server_socket = Server2.create_server_socket.
Proof. reflexivity. Qed.

(** What becomes of a run of the plaintext server's [main] on a fresh
    process, for every behaviour of the connection. *)
Lemma plaintext_main_account (w : World) (reset : nat -> bool) :
  trace w = [] ->
  sys_accept w <> sys_socket w ->
  let tr := trace (snd (Server1.main w)) in
  let failed := (sys_socket w <? 0) || (sys_bind w <? 0) ||
                (sys_listen w <? 0) || (sys_accept w <? 0) in
  fst (Server1.main w) = Ok 0 /\
  closes (sys_socket w) (observed reset tr) =
    closes (sys_accept w) (observed reset tr) /\
  List.length (stderr_lines (observed reset tr)) = (if failed then 1 else 0)%nat /\
  (closes (sys_accept w) (observed reset tr) +
   (if killed reset tr then 1 else 0) = if failed then 0 else 1)%nat.
Proof.
  intros Hfresh Hfd. cbv zeta.
  unfold Server1.main, bind, try_catch.
  rewrite plaintext_create_server_socket_same, (create_server_socket_cases w).
  destruct (sys_socket w <? 0);
    [simpl; rewrite Hfresh; repeat split|].
  destruct (sys_bind w <? 0);
    [simpl; rewrite Hfresh; repeat split|].
  destruct (sys_listen w <? 0);
    [simpl; rewrite Hfresh; repeat split|].
  unfold cout, emit, ask. cbn [sys_accept log].
  destruct (sys_accept w <? 0);
    [simpl; rewrite Hfresh; repeat split|].
  unfold ret.
  assert (Hs : (sys_socket w =? sys_accept w) = false) by (apply Z.eqb_neq; congruence).
  assert (Ha : (sys_accept w =? sys_socket w) = false) by (apply Z.eqb_neq; congruence).
  match goal with
  | |- context [Server1.handle_client ?s ?W] =>
      destruct (plaintext_handle_client_trace s W)
        as (n1 & hello & n2 & username & n3 & password & w0 & _ & _ & H0 & Htr);
      rewrite H0
  end.
  cbn [trace log] in Htr. rewrite Hfresh in Htr.
  unfold sys_close, emit. cbn [fst snd trace log orb].
  rewrite Htr. unfold observed, killed.
  cbn [app observed_from killed_from].
  repeat (try match goal with
              | |- context [reset ?k] => destruct (reset k)
              end;
          cbn [app observed_from killed_from closes stderr_lines
               List.length Nat.add]);
    rewrite ?Z.eqb_refl, ?Hs, ?Ha; repeat split.
Qed.

(** X12: whenever the plaintext server's [main] returns, it returns 0.
    On a fresh process, when [socket], [bind], [listen] or [accept] fails
    one line goes to standard error and nothing is closed; when they all
    succeed nothing goes to standard error, and either the connection and
    the listening socket are each closed once or SIGPIPE ends the process
    at a [send] on a reset connection with neither of them closed. *)
Theorem plaintext_main_closes_unless_killed
        (w : World) (reset : nat -> bool) (z : Z) (w' : World) :
  trace w = [] ->
  sys_accept w <> sys_socket w ->
  Server1.main w = (Ok z, w') ->
  let failed := (sys_socket w <? 0) || (sys_bind w <? 0) ||
                (sys_listen w <? 0) || (sys_accept w <? 0) in
  z = 0 /\
  closes (sys_socket w) (observed reset (trace w')) =
    closes (sys_accept w) (observed reset (trace w')) /\
  List.length (stderr_lines (observed reset (trace w'))) =
    (if failed then 1 else 0)%nat /\
  (closes (sys_accept w) (observed reset (trace w')) +
   (if killed reset (trace w') then 1 else 0) = if failed then 0 else 1)%nat.
Proof.
  intros Hfresh Hfd Hrun. cbv zeta.
  destruct (plaintext_main_account w reset Hfresh Hfd) as (Hz & Hc & He & Hsum).
  rewrite Hrun in Hz, Hc, He, Hsum. cbn [fst snd] in Hz, Hc, He, Hsum.
  injection Hz as ->. repeat split; assumption.
Qed.

(** X12 on a machine on which every socket call succeeds and the
    connection is not reset. *)
Lemma plaintext_main_closes_unless_killed_witness :
  let w := machine [Data (lit "hello"); Data (lit "admin"); Data (lit "pass123")] 1 in
  let w' := snd (Server1.main w) in
  0 = 0 /\
  closes 3 (observed never_reset (trace w')) =
    closes 4 (observed never_reset (trace w')) /\
  List.length (stderr_lines (observed never_reset (trace w'))) = 0%nat /\
  (closes 4 (observed never_reset (trace w')) +
   (if killed never_reset (trace w') then 1 else 0) = 1)%nat.
Proof.
  cbv zeta.
  refine (plaintext_main_closes_unless_killed
            (machine [Data (lit "hello"); Data (lit "admin"); Data (lit "pass123")] 1)
            never_reset 0
            (snd (Server1.main
                    (machine [Data (lit "hello"); Data (lit "admin");
                              Data (lit "pass123")] 1)))
            eq_refl _ _).
  - simpl. lia.
  - apply run_ok. vm_compute. reflexivity.
Defined.

(** ** The plaintext variant: client.cpp *)

(** Every run of the plaintext [client_interaction], event by event: it
    always returns, and what it sends is the greeting and the next two
    lines of standard input. *)
Lemma plaintext_client_trace (sock : Z) (input : list std_string) (w : World) :
  exists n1 m1 n2 m2 n3 m3 n4 m4 w',
    Client1.client_interaction sock input w = (Ok (skipn 2 input), w') /\
    fst (Server2.read_message sock w) = Ok m1 /\
    trace w' =
    trace w ++
    [EvRead sock n1; EvStdout (m1 ++ endl); EvSend sock (lit "hello");
     EvRead sock n2; EvStdout (m2 ++ endl); EvSend sock (nth 0 input []);
     EvRead sock n3; EvStdout (m3 ++ endl); EvSend sock (nth 1 input []);
     EvRead sock n4; EvStdout (m4 ++ endl)].
Proof.
  unfold Client1.client_interaction, bind.
  unfold Client1.send_message, sys_send.
  rewrite client1_read_message_same.
  destruct (read_message_world sock w) as (m1 & n1 & ds1 & H1 & _ & _).
  rewrite H1. unfold cout, emit.
  match goal with
  | |- context [Server2.read_message sock ?W] =>
      destruct (read_message_world sock W) as (m2 & n2 & ds2 & H2 & _ & _);
      rewrite H2
  end.
  assert (Hget : forall l : list std_string,
             Client1.getline l = (nth 0 l [], skipn 1 l))
    by (intros [|x l]; reflexivity).
  rewrite (Hget input).
  match goal with
  | |- context [Server2.read_message sock ?W] =>
      destruct (read_message_world sock W) as (m3 & n3 & ds3 & H3 & _ & _);
      rewrite H3
  end.
  rewrite (Hget (skipn 1 input)).
  match goal with
  | |- context [Server2.read_message sock ?W] =>
      destruct (read_message_world sock W) as (m4 & n4 & ds4 & H4 & _ & _);
      rewrite H4
  end.
  exists n1, m1, n2, m2, n3, m3, n4, m4. eexists.
  unfold ret. split; [|split; [reflexivity|]].
  - f_equal. f_equal. destruct input as [|a [|b l]]; reflexivity.
  - cbn [snd trace log set_inbound].
    rewrite <- !app_assoc.
    replace (nth 0 (skipn 1 input) []) with (nth 1 input [])
      by (destruct input as [|a [|b l]]; reflexivity).
    reflexivity.
Qed.

(** X13: the plaintext client is never left by an exception, and a run
    of [client_interaction] that returns has sent the greeting and then
    the next two lines of standard input (empty strings when the input has
    run out), whatever the server has said: it does not check any prompt.
    It has consumed those two lines and has not closed the socket. *)
Theorem plaintext_client_sends_typed_lines
        (sock : Z) (input : list std_string) (w : World)
        (r : outcome (list std_string)) (w' : World) :
  Client1.client_interaction sock input w = (r, w') ->
  (forall what, r <> Throw what) /\
  (forall rest, r = Ok rest ->
     rest = skipn 2 input /\
     sends sock (trace w') =
       sends sock (trace w) ++ [lit "hello"; nth 0 input []; nth 1 input []] /\
     closes sock (trace w') = closes sock (trace w)).
Proof.
  intros Hrun.
  destruct (plaintext_client_trace sock input w)
    as (n1 & m1 & n2 & m2 & n3 & m3 & n4 & m4 & w0 & H0 & _ & Htr).
  rewrite H0 in Hrun. injection Hrun as <- <-.
  split; [discriminate|].
  intros rest [= <-]. split; [reflexivity|].
  rewrite Htr, sends_app, closes_app. cbn [sends closes].
  rewrite !Z.eqb_refl. split; [reflexivity|lia].
Qed.

(** X13 on a user who types two lines to a server that says nothing the
    client would expect. *)
Lemma plaintext_client_sends_typed_lines_witness :
  let w := machine [Data (lit "go away")] 1 in
  let input := [lit "admin"; lit "pass123"; lit "more"] in
  let w' := snd (Client1.client_interaction 3 input w) in
  (forall what, Ok [lit "more"] <> Throw what) /\
  (forall rest, Ok [lit "more"] = Ok rest ->
     rest = skipn 2 input /\
     sends 3 (trace w') =
       sends 3 (trace w) ++ [lit "hello"; nth 0 input []; nth 1 input []] /\
     closes 3 (trace w') = closes 3 (trace w)).
Proof.
  cbv zeta.
  refine (plaintext_client_sends_typed_lines
            3 [lit "admin"; lit "pass123"; lit "more"]
            (machine [Data (lit "go away")] 1) (Ok [lit "more"])
            (snd (Client1.client_interaction
                    3 [lit "admin"; lit "pass123"; lit "more"]
                    (machine [Data (lit "go away")] 1)))
            _).
  apply run_ok. vm_compute. reflexivity.
Defined.

(** The plaintext client's exchange when four messages arrive as one
    segment each. *)
Lemma plaintext_client_whole
      (sock : Z) (input : list std_string) (w : World)
      (m1 m2 m3 m4 : std_string) (rest : list delivery) :
  inbound w = Data m1 :: Data m2 :: Data m3 :: Data m4 :: rest ->
  (List.length m1 <= 1024)%nat ->
  (List.length m2 <= 1024)%nat ->
  (List.length m3 <= 1024)%nat ->
  (List.length m4 <= 1024)%nat ->
  stdout_lines (trace (snd (Client1.client_interaction sock input w))) =
  stdout_lines (trace w) ++ [m1 ++ endl; m2 ++ endl; m3 ++ endl; m4 ++ endl].
Proof.
  intros Hin H1 H2 H3 H4.
  unfold Client1.client_interaction, bind.
  unfold Client1.send_message, sys_send.
  rewrite client1_read_message_same.
  rewrite (read_message_whole sock w m1 _ Hin H1).
  unfold cout, emit.
  match goal with
  | |- context [Server2.read_message sock ?W] =>
      rewrite (read_message_whole sock W m2 (Data m3 :: Data m4 :: rest) eq_refl H2)
  end.
  destruct (Client1.getline input) as [username input1].
  match goal with
  | |- context [Server2.read_message sock ?W] =>
      rewrite (read_message_whole sock W m3 (Data m4 :: rest) eq_refl H3)
  end.
  destruct (Client1.getline input1) as [password input2].
  match goal with
  | |- context [Server2.read_message sock ?W] =>
      rewrite (read_message_whole sock W m4 rest eq_refl H4)
  end.
  unfold ret. cbn [snd trace log set_inbound].
  rewrite !stdout_lines_app. cbn [stdout_lines].
  rewrite !app_nil_r, <- !app_assoc. reflexivity.
Qed.

Lemma plaintext_messages_fit_buffer :
  (List.length Server1.greeting <= 1024)%nat /\
  (List.length Server1.ask_username <= 1024)%nat /\
  (List.length Server1.ask_password <= 1024)%nat /\
  forall b : bool,
    (List.length (if b then Server1.success else Server1.failure) <= 1024)%nat.
Proof.
  split; [|split; [|split]].
  - apply Nat.leb_le. vm_compute. reflexivity.
  - apply Nat.leb_le. vm_compute. reflexivity.
  - apply Nat.leb_le. vm_compute. reflexivity.
  - intros [|]; apply Nat.leb_le; vm_compute; reflexivity.
Qed.

(** X14: client.cpp and server.cpp connected by a transport that keeps
    message boundaries, each receiving exactly what the other sends, with
    a user who types the non-empty lines [u] and [p].  The server sends the
    greeting, the two prompts and the verdict, the client prints all four,
    and the verdict is the success one exactly when [u] is "admin" and [p]
    is "pass123". *)
Theorem plaintext_login_end_to_end
        (sfd cfd : Z) (ws wc : World) (u p : std_string) (input : list std_string) :
  trace ws = [] ->
  trace wc = [] ->
  u <> [] ->
  p <> [] ->
  (List.length u <= 1024)%nat ->
  (List.length p <= 1024)%nat ->
  inbound ws =
    whole (sends cfd (trace (snd (Client1.client_interaction
                                    cfd (u :: p :: input) wc)))) ->
  inbound wc = whole (sends sfd (trace (snd (Server1.handle_client sfd ws)))) ->
  exists v,
    sends sfd (trace (snd (Server1.handle_client sfd ws))) =
      [Server1.greeting; Server1.ask_username; Server1.ask_password; v] /\
    stdout_lines (trace (snd (Client1.client_interaction cfd (u :: p :: input) wc))) =
      [Server1.greeting ++ endl; Server1.ask_username ++ endl;
       Server1.ask_password ++ endl; v ++ endl] /\
    (v = Server1.success <-> u = lit "admin" /\ p = lit "pass123").
Proof.
  intros Hs Hc _ _ Hu Hp Hin_s Hin_c.
  destruct (plaintext_messages_fit_buffer) as (Hg & Hau & Hap & Hv).
  (* what the client sends does not depend on what it receives *)
  destruct (plaintext_client_trace cfd (u :: p :: input) wc)
    as (n1 & m1 & n2 & m2 & n3 & m3 & n4 & m4 & wc1 & Hrun1 & _ & Htr1).
  rewrite Hrun1 in Hin_s. cbn [snd] in Hin_s.
  rewrite Htr1, Hc in Hin_s. cbn [app sends nth] in Hin_s.
  rewrite !Z.eqb_refl in Hin_s. cbn [whole map] in Hin_s.
  (* the server reads the three messages whole *)
  destruct (plaintext_handle_client_whole sfd ws (lit "hello") u p [] Hin_s)
    as (ws' & Hrun_s & _ & Htr_s); [simpl; lia | exact Hu | exact Hp |].
  rewrite Hrun_s in Hin_c |- *. cbn [snd] in Hin_c |- *.
  rewrite Htr_s, Hs in Hin_c |- *. cbn [app sends] in Hin_c |- *.
  rewrite !Z.eqb_refl in Hin_c |- *. cbn [whole map] in Hin_c.
  exists (if string_eqb u (lit "admin") && string_eqb p (lit "pass123")
          then Server1.success else Server1.failure).
  split; [reflexivity|]. split.
  - rewrite (plaintext_client_whole cfd (u :: p :: input) wc _ _ _ _ []
               Hin_c Hg Hau Hap (Hv _)).
    rewrite Hc. reflexivity.
  - pose proof plaintext_verdicts_differ as Hdiff.
    destruct (string_eqb u (lit "admin")) eqn:Eu;
      destruct (string_eqb p (lit "pass123")) eqn:Ep; cbn [andb].
    + apply string_eqb_true in Eu, Ep. tauto.
    + apply string_eqb_neq in Ep.
      split; [intros H; symmetry in H; contradiction|tauto].
    + apply string_eqb_neq in Eu.
      split; [intros H; symmetry in H; contradiction|tauto].
    + apply string_eqb_neq in Eu.
      split; [intros H; symmetry in H; contradiction|tauto].
Qed.

(** X14 for a user who types the right credentials. *)
Lemma plaintext_login_end_to_end_witness :
  let ws := machine [Data (lit "hello"); Data (lit "admin"); Data (lit "pass123")] 1 in
  let wc := machine [Data Server1.greeting; Data Server1.ask_username;
                     Data Server1.ask_password; Data Server1.success] 1 in
  exists v,
    sends 4 (trace (snd (Server1.handle_client 4 ws))) =
      [Server1.greeting; Server1.ask_username; Server1.ask_password; v] /\
    stdout_lines (trace (snd (Client1.client_interaction
                                3 [lit "admin"; lit "pass123"] wc))) =
      [Server1.greeting ++ endl; Server1.ask_username ++ endl;
       Server1.ask_password ++ endl; v ++ endl] /\
    (v = Server1.success <-> lit "admin" = lit "admin" /\ lit "pass123" = lit "pass123").
Proof.
  cbv zeta.
  refine (plaintext_login_end_to_end
            4 3
            (machine [Data (lit "hello"); Data (lit "admin"); Data (lit "pass123")] 1)
            (machine [Data Server1.greeting; Data Server1.ask_username;
                      Data Server1.ask_password; Data Server1.success] 1)
            (lit "admin") (lit "pass123") []
            eq_refl eq_refl _ _ _ _ _ _).
  - discriminate.
  - discriminate.
  - simpl. lia.
  - simpl. lia.
  - vm_compute. reflexivity.
  - vm_compute. reflexivity.
Defined.

Lemma plaintext_create_client_socket_cases (w : World) :
  Client1.create_client_socket w =
  (if sys_socket w <? 0 then Throw "Socket creation failed"
   else if sys_pton w <=? 0 then
          if sys_pton w =? 0
          then Throw "Invalid IP address format: 127.0.0.1"
          else Throw "Failed to convert IP address"
   else if sys_connect w <? 0 then Throw "Connection failed"
   else Ok (sys_socket w), w).
Proof.
  unfold Client1.create_client_socket, Client1.set_ip_address, bind, ask, throw, ret.
  destruct (sys_socket w <? 0); [reflexivity|].
  destruct (sys_pton w <=? 0); [destruct (sys_pton w =? 0); reflexivity|].
  destruct (sys_connect w <? 0); reflexivity.
Qed.

(** What becomes of a run of the plaintext client's [main] on a fresh
    process, for every behaviour of the connection. *)
Lemma plaintext_client_main_account
      (input : list std_string) (w : World) (reset : nat -> bool) :
  trace w = [] ->
  let tr := trace (snd (Client1.main input w)) in
  let failed := (sys_socket w <? 0) || (sys_pton w <=? 0) || (sys_connect w <? 0) in
  fst (Client1.main input w) = Ok 0 /\
  List.length (stderr_lines (observed reset tr)) = (if failed then 1 else 0)%nat /\
  (closes (sys_socket w) (observed reset tr) +
   (if killed reset tr then 1 else 0) = if failed then 0 else 1)%nat /\
  (failed = true -> sends (sys_socket w) (observed reset tr) = []) /\
  (failed = false -> killed reset tr = false ->
   sends (sys_socket w) (observed reset tr) =
     [lit "hello"; nth 0 input []; nth 1 input []]).
Proof.
  intros Hfresh. cbv zeta.
  unfold Client1.main, bind, try_catch.
  rewrite (plaintext_create_client_socket_cases w).
  destruct (sys_socket w <? 0);
    [simpl; rewrite Hfresh; repeat split; discriminate|].
  destruct (sys_pton w <=? 0);
    [destruct (sys_pton w =? 0); simpl; rewrite Hfresh; repeat split; discriminate|].
  destruct (sys_connect w <? 0);
    [simpl; rewrite Hfresh; repeat split; discriminate|].
  destruct (plaintext_client_trace (sys_socket w) input w)
    as (n1 & m1 & n2 & m2 & n3 & m3 & n4 & m4 & w0 & H0 & _ & Htr).
  rewrite H0. rewrite Hfresh in Htr.
  unfold sys_close, emit, ret. cbn [fst snd trace log orb].
  rewrite Htr. unfold observed, killed.
  cbn [app observed_from killed_from].
  repeat (try match goal with
              | |- context [reset ?k] => destruct (reset k)
              end;
          cbn [app observed_from killed_from closes stderr_lines sends
               List.length Nat.add]);
    rewrite ?Z.eqb_refl; repeat split; discriminate.
Qed.

(** X15: whenever the plaintext client's [main] returns, it returns 0.
    On a fresh process, when [socket], [inet_pton] or [connect] fails one
    line goes to standard error and nothing is sent or closed; when they
    all succeed nothing goes to standard error, and either the greeting
    and the two typed lines are sent and the socket is closed once, or
    SIGPIPE ends the process at a [send] on a reset connection with the
    socket not closed. *)
Theorem plaintext_client_main_closes_unless_killed
        (input : list std_string) (w : World) (reset : nat -> bool)
        (z : Z) (w' : World) :
  trace w = [] ->
  Client1.main input w = (Ok z, w') ->
  let failed := (sys_socket w <? 0) || (sys_pton w <=? 0) || (sys_connect w <? 0) in
  z = 0 /\
  List.length (stderr_lines (observed reset (trace w'))) =
    (if failed then 1 else 0)%nat /\
  (closes (sys_socket w) (observed reset (trace w')) +
   (if killed reset (trace w') then 1 else 0) = if failed then 0 else 1)%nat /\
  (failed = true -> sends (sys_socket w) (observed reset (trace w')) = []) /\
  (failed = false -> killed reset (trace w') = false ->
   sends (sys_socket w) (observed reset (trace w')) =
     [lit "hello"; nth 0 input []; nth 1 input []]).
Proof.
  intros Hfresh Hrun. cbv zeta.
  destruct (plaintext_client_main_account input w reset Hfresh)
    as (Hz & He & Hsum & Hnone & Hall).
  rewrite Hrun in Hz, He, Hsum, Hnone, Hall.
  cbn [fst snd] in Hz, He, Hsum, Hnone, Hall.
  injection Hz as ->. repeat split; assumption.
Qed.

(** X15 on a machine on which every socket call succeeds and the
    connection is not reset. *)
Lemma plaintext_client_main_closes_unless_killed_witness :
  let w := machine [] 1 in
  let input := [lit "admin"; lit "pass123"] in
  let w' := snd (Client1.main input w) in
  0 = 0 /\
  List.length (stderr_lines (observed never_reset (trace w'))) = 0%nat /\
  (closes 3 (observed never_reset (trace w')) +
   (if killed never_reset (trace w') then 1 else 0) = 1)%nat /\
  (false = true -> sends 3 (observed never_reset (trace w')) = []) /\
  (false = false -> killed never_reset (trace w') = false ->
   sends 3 (observed never_reset (trace w')) =
     [lit "hello"; nth 0 input []; nth 1 input []]).
Proof.
  cbv zeta.
  refine (plaintext_client_main_closes_unless_killed
            [lit "admin"; lit "pass123"] (machine [] 1) never_reset 0
            (snd (Client1.main [lit "admin"; lit "pass123"] (machine [] 1)))
            eq_refl _).
  apply run_ok. vm_compute. reflexivity.
Defined.

(** ** Message boundaries *)

Lemma wire_after_sends (fd : Z) (msgs : list std_string) (w : World) :
  wire fd (trace (fold_left (fun w m => snd (Server2.send_message fd m w)) msgs w)) =
  wire fd (trace w) ++ List.concat msgs.
Proof.
  revert w. induction msgs as [|m msgs IH]; intros w; cbn [fold_left List.concat].
  - symmetry. apply app_nil_r.
  - rewrite IH. cbn [Server2.send_message sys_send emit snd trace log].
    unfold Server2.send_message, sys_send, emit. cbn [snd trace log].
    rewrite wire_app. cbn [wire]. rewrite Z.eqb_refl, app_nil_r.
    rewrite <- app_assoc. reflexivity.
Qed.

(** X16: message boundaries do not survive the stream.  When several
    messages sent one after the other on a fresh connection arrive as one
    segment of at most 1024 bytes, a single [read_message] returns their
    concatenation as if it were one message. *)
Theorem coalesced_messages_read_as_one
        (fd sock : Z) (msgs : list std_string) (ws wr : World) :
  wire fd (trace ws) = [] ->
  (List.length (List.concat msgs) <= 1024)%nat ->
  let ws' := fold_left (fun w m => snd (Server2.send_message fd m w)) msgs ws in
  fst (Server2.read_message sock
         (set_inbound (segments [] (wire fd (trace ws'))) wr)) =
  Ok (List.concat msgs).
Proof.
  intros Hfresh Hlen. cbv zeta.
  rewrite wire_after_sends, Hfresh. cbn [app].
  apply (read_message_segments sock wr [] (List.concat msgs) Hlen).
Qed.

(** X16 on a username and a password sent back to back. *)
Lemma coalesced_messages_read_as_one_witness :
  fst (Server2.read_message 4
         (set_inbound
            (segments []
               (wire 3 (trace (fold_left
                                 (fun w m => snd (Server2.send_message 3 m w))
                                 [lit "admin"; lit "pass123"] (machine [] 1)))))
            (machine [] 1))) =
  Ok (lit "adminpass123").
Proof.
  apply (coalesced_messages_read_as_one
           3 4 [lit "admin"; lit "pass123"] (machine [] 1) (machine [] 1)).
  - reflexivity.
  - simpl. lia.
Defined.

(** ** Successive challenges *)

(** X17: while [RAND_bytes] succeeds, a challenge of up to 64 bytes is
    exactly the next [length] bytes of the secure generator, nothing of the
    buffer's zero padding and nothing left over from an earlier call; the
    challenge of a following call continues where this one ended. *)
Theorem challenges_are_consecutive_generator_output
        (length length2 : Z) (w : World) :
  rand_status w = 1 ->
  0 <= length <= 64 ->
  0 <= length2 <= 64 ->
  exists w',
    Server2.generate_challenge length w =
      (Ok (map (entropy w) (seq (drawn w) (Z.to_nat length))), w') /\
    fst (Server2.generate_challenge length2 w') =
      Ok (map (entropy w) (seq (drawn w + Z.to_nat length) (Z.to_nat length2))).
Proof.
  intros H1 Hlen Hlen2.
  rewrite (generate_challenge_success length w H1 Hlen).
  eexists. split; [reflexivity|].
  rewrite generate_challenge_success by (assumption || exact Hlen2).
  reflexivity.
Qed.

(** X17 on two default-length challenges. *)
Lemma challenges_are_consecutive_generator_output_witness :
  exists w',
    Server2.generate_challenge 16 (machine [] 1) =
      (Ok (map sample_entropy (seq 0 16)), w') /\
    fst (Server2.generate_challenge 16 w') = Ok (map sample_entropy (seq 16 16)).
Proof.
  apply (challenges_are_consecutive_generator_output 16 16 (machine [] 1)).
  - reflexivity.
  - lia.
  - lia.
Defined.
